(** * mindtheheadphone: the deal-evaluation pipeline

    A shallow embedding of [brazil_taxes.py] and of the evaluation logic of
    [deals_checker.py] (with the [Product] record of [google_sheets.py]),
    followed by the properties of the specification that concern them.

    Conventions of the embedding.
    - A Python [float] is an IEEE-754 binary64 number: Rocq's primitive
      [float], whose operations round to nearest-even as CPython's do.
      Python's [a >= b] is written [b <=? a], and [a > b] is [b <? a].
    - A Python [str] is the [string] of its UTF-8 encoding.  Comparing,
      searching and replacing go byte by byte, which on encoded text finds
      what Python finds; [len], [str.isdigit] and the regular expressions
      work on code points ([Py.codepoints]).
    - The interpreter's Unicode database is a parameter
      ([Py.UnicodeData]): which code points beyond ASCII are digits depends
      on the version of Python that runs the program.
    - [None]-able values are [option]s.
    - The module global [USD_TO_BRL_RATE] is an explicit state component.
    - Network, environment and clock are the fields of a [World] record. *)

From Stdlib Require Import Floats ZArith Lia Bool List Ascii String.
From Stdlib Require Import DecimalString.
From Stdlib Require Import Permutation Sorted.
Import ListNotations.

#[local] Set Warnings "-inexact-float".

Open Scope string_scope.

(* ================================================================== *)
(** * Python built-ins used by the program *)
(* ================================================================== *)

Module Py.

(** ** Floats *)

(** [bool(x)] for a float: every value but [0.0] and [-0.0] is truthy
    (a NaN included). *)
Definition truthy (x : float) : bool := negb (x =? 0)%float.

(** [x / y]: Python raises [ZeroDivisionError] on a zero divisor, where
    IEEE arithmetic would give an infinity or a NaN. *)
Definition truediv (x y : float) : option float :=
  if (y =? 0)%float then None else Some (x / y)%float.

(** ** Strings *)

Definition is_ascii_digit (c : ascii) : bool :=
  (48 <=? nat_of_ascii c)%nat && (nat_of_ascii c <=? 57)%nat.

Definition is_ascii_lower (c : ascii) : bool :=
  (97 <=? nat_of_ascii c)%nat && (nat_of_ascii c <=? 122)%nat.

Definition is_ascii_upper (c : ascii) : bool :=
  (65 <=? nat_of_ascii c)%nat && (nat_of_ascii c <=? 90)%nat.

Definition upper_char (c : ascii) : ascii :=
  if is_ascii_lower c then ascii_of_nat (nat_of_ascii c - 32) else c.

Definition lower_char (c : ascii) : ascii :=
  if is_ascii_upper c then ascii_of_nat (nat_of_ascii c + 32) else c.

(** [s.upper()], on the ASCII letters.  The program only compares the
    result with [BRL]: no code point beyond ASCII has an upper case made
    of these letters, and a text that holds one is unequal to [BRL] before
    and after. *)
Fixpoint upper (s : string) : string :=
  match s with
  | EmptyString => EmptyString
  | String c s' => String (upper_char c) (upper s')
  end.

Fixpoint all_chars (p : ascii -> bool) (s : string) : bool :=
  match s with
  | EmptyString => true
  | String c s' => p c && all_chars p s'
  end.

(** [bool(s)] for a string. *)
Definition nonempty (s : string) : bool :=
  match s with EmptyString => false | _ => true end.

(** ** Code points

    In UTF-8 an ASCII character is one byte below 128; any other code
    point is a leading byte followed by continuation bytes, the bytes
    [10xxxxxx]. *)

Definition is_ascii (c : ascii) : bool :=
  match c with Ascii _ _ _ _ _ _ _ b7 => negb b7 end.

Definition is_continuation (c : ascii) : bool :=
  match c with Ascii _ _ _ _ _ _ b6 b7 => b7 && negb b6 end.

(** The code points of a text, each one as the bytes that encode it: a
    byte, with the continuation bytes that follow it. *)
Fixpoint codepoints (s : string) : list string :=
  match s with
  | EmptyString => []
  | String x s' =>
      match codepoints s' with
      | String y t :: rest =>
          if is_continuation y then String x (String y t) :: rest
          else String x EmptyString :: String y t :: rest
      | rest => String x EmptyString :: rest
      end
  end.

(** The text made of a list of code points. *)
Definition join (chars : list string) : string :=
  fold_right append EmptyString chars.

(** [len(s)] *)
Definition len (s : string) : nat := List.length (codepoints s).

(** The property Numeric_Type of a code point, where it is Decimal (the
    code points of the category Nd) or Digit. *)
Inductive NumericType : Type :=
| Decimal
| Digit.

(** The interpreter's Unicode database, as far as the program consults
    it: the Numeric_Type of the code points beyond ASCII, [None] standing
    for every other value of the property.  It differs from one version
    of Python to the next, and the model takes it as a parameter. *)
Definition UnicodeData : Type := string -> option NumericType.

(** In ASCII the decimal digits are [0] to [9], and no other character
    is a digit. *)
Definition numeric_type (u : UnicodeData) (char : string)
  : option NumericType :=
  match char with
  | String x EmptyString =>
      if is_ascii x
      then (if is_ascii_digit x then Some Decimal else None)
      else u char
  | _ => u char
  end.

(** [Py_UNICODE_ISDECIMAL] *)
Definition is_decimal (u : UnicodeData) (char : string) : bool :=
  match numeric_type u char with
  | Some Decimal => true
  | _ => false
  end.

(** [Py_UNICODE_ISDIGIT]: Numeric_Type is Digit or Decimal. *)
Definition is_digit (u : UnicodeData) (char : string) : bool :=
  match numeric_type u char with
  | Some _ => true
  | None => false
  end.

(** [s.isdigit()]: at least one character, and all of them digits. *)
Definition isdigit (u : UnicodeData) (s : string) : bool :=
  nonempty s && forallb (is_digit u) (codepoints s).

(** [bool(o)] for an optional string: [None] and [''] are falsy. *)
Definition truthy_str (o : option string) : bool :=
  match o with Some s => nonempty s | None => false end.

(** [s.startswith(p)] *)
Definition startswith (s p : string) : bool := prefix p s.

(** [sub in s] *)
Fixpoint contains (sub s : string) : bool :=
  prefix sub s ||
  match s with
  | EmptyString => false
  | String _ s' => contains sub s'
  end.

(** [s.replace(old, new)] for a non-empty [old]: every non-overlapping
    occurrence, leftmost first.  [skip] counts the characters of a matched
    occurrence that remain to be dropped. *)
Fixpoint replace_from (old new : string) (skip : nat) (s : string) : string :=
  match s with
  | EmptyString => EmptyString
  | String c s' =>
      match skip with
      | S n => replace_from old new n s'
      | O =>
          if prefix old s
          then new ++ replace_from old new (String.length old - 1) s'
          else String c (replace_from old new 0 s')
      end
  end.

Definition replace (old new s : string) : string := replace_from old new 0 s.

(** ** Formatting a float: [f"{x:,.2f}"]

    The digits are those of the exact value of the float, rounded to two
    decimals, a tie going to the even neighbour; the integer part is
    grouped by three with commas; a negative float keeps its sign even
    when it rounds to zero; infinities and NaN are [inf] and [nan]. *)

(** [num / den] rounded to the nearest integer, ties to even. *)
Definition round_half_even (num den : Z) : Z :=
  let q := (num / den)%Z in
  let r := (num mod den)%Z in
  match (2 * r ?= den)%Z with
  | Lt => q
  | Gt => (q + 1)%Z
  | Eq => if Z.even q then q else (q + 1)%Z
  end.

(** The hundredths in [m * 2^e], rounded. *)
Definition hundredths (m : positive) (e : Z) : Z :=
  if (0 <=? e)%Z then (Zpos m * 2 ^ e * 100)%Z
  else round_half_even (Zpos m * 100) (2 ^ (- e)).

Definition digit_char (d : nat) : ascii := ascii_of_nat (48 + d).

(** Commas into a digit list that runs from the last digit to the first;
    [n] digits of the current group are out already. *)
Fixpoint group_rev (digits : list ascii) (n : nat) : list ascii :=
  match digits with
  | [] => []
  | c :: rest =>
      if (n =? 3)%nat then ","%char :: c :: group_rev rest 1
      else c :: group_rev rest (S n)
  end.

Definition group_thousands (digits : string) : string :=
  string_of_list_ascii
    (rev (group_rev (rev (list_ascii_of_string digits)) 0)).

Definition sign_text (negative : bool) : string :=
  if negative then "-" else "".

Definition format_comma_2f (x : float) : string :=
  match Prim2SF x with
  | S754_nan => "nan"
  | S754_infinity s => sign_text s ++ "inf"
  | S754_zero s => sign_text s ++ "0.00"
  | S754_finite s m e =>
      let h := hundredths m e in
      let cents := Z.to_nat (h mod 100) in
      sign_text s
      ++ group_thousands
           (NilZero.string_of_uint (N.to_uint (Z.to_N (h / 100))))
      ++ "."
      ++ String (digit_char (cents / 10))
           (String (digit_char (cents mod 10)) EmptyString)
  end.

(** ** Regular expressions

    The fragment of [re] the program uses, on [str] patterns: literal
    ASCII characters, character classes, sequence, alternation, [?], [+]
    on a character class, and one capture group.  The matcher works on
    code points and backtracks as [re] does: alternatives left to right,
    quantifiers greedy. *)

Inductive char_class : Type :=
| Decimal_digit
  (** [\d]: on a [str] pattern, every Unicode decimal digit *)
| Ascii_set (p : ascii -> bool)
  (** a set of ASCII characters, such as [[0-9]] *)
| Ascii_except (p : ascii -> bool)
  (** the complement of a set of ASCII characters, such as [[^/]] *)
.

Inductive regex : Type :=
| Eps
| Chr (c : ascii)
| Class (c : char_class)
| Cat (r1 r2 : regex)
| Or (r1 r2 : regex)
| Opt (r : regex)
| Plus (c : char_class)
| Group (r : regex).

Fixpoint Lit (s : string) : regex :=
  match s with
  | EmptyString => Eps
  | String c s' => Cat (Chr c) (Lit s')
  end.

Definition Seq (rs : list regex) : regex := fold_right Cat Eps rs.

(** [\d] *)
Definition digit : char_class := Decimal_digit.

(** [[0-9]] *)
Definition digit_0_9 : char_class := Ascii_set is_ascii_digit.

(** [[a-zA-Z0-9_-]] *)
Definition word_or_dash : char_class :=
  Ascii_set (fun c => is_ascii_lower c || is_ascii_upper c || is_ascii_digit c
                      || Ascii.eqb c "_" || Ascii.eqb c "-").

(** [[^/]] *)
Definition not_slash : char_class := Ascii_except (fun c => Ascii.eqb c "/").

(** The four code points beyond ASCII that [re.IGNORECASE] matches with an
    ASCII letter: U+0130 (capital I with dot above) and U+212A (the Kelvin
    sign), whose lower case is [i] and [k], and U+0131 (dotless i) and
    U+017F (long s), which share their upper case with [i] and [s]. *)
Definition U0130 : string := String "196" (String "176" EmptyString).
Definition U0131 : string := String "196" (String "177" EmptyString).
Definition U017F : string := String "197" (String "191" EmptyString).
Definition U212A : string :=
  String "226" (String "132" (String "170" EmptyString)).

(** The lower-case ASCII character that a code point is equal to when
    case is ignored, if there is one. *)
Definition fold_ascii (char : string) : option ascii :=
  match char with
  | String x EmptyString => if is_ascii x then Some (lower_char x) else None
  | _ =>
      if String.eqb char U0130 || String.eqb char U0131 then Some "i"%char
      else if String.eqb char U017F then Some "s"%char
      else if String.eqb char U212A then Some "k"%char
      else None
  end.

Section Matcher.
Context {R : Type}.

Variable u : UnicodeData.

(** [icase] is the flag [re.IGNORECASE]. *)
Variable icase : bool.

(** A literal character [c] of the pattern against a code point. *)
Definition chr_matches (c : ascii) (char : string) : bool :=
  String.eqb char (String c EmptyString)
  || (icase
      && match fold_ascii char with
         | Some x => Ascii.eqb x (lower_char c)
         | None => false
         end).

(** A code point against a set of ASCII characters. *)
Definition in_set (p : ascii -> bool) (char : string) : bool :=
  if icase
  then match fold_ascii char with
       | Some x => p x || p (upper_char x)
       | None => false
       end
  else match char with
       | String x EmptyString => is_ascii x && p x
       | _ => false
       end.

Definition class_matches (c : char_class) (char : string) : bool :=
  match c with
  | Decimal_digit => is_decimal u char
  | Ascii_set p => in_set p char
  | Ascii_except p => negb (in_set p char)
  end.

(** [c+] at the head of [s]: the longest run first, then shorter ones. *)
Fixpoint plus_at (c : char_class) (s : list string)
         (k : list string -> option R) : option R :=
  match s with
  | [] => None
  | x :: s' =>
      if class_matches c x
      then match plus_at c s' k with
           | Some res => Some res
           | None => k s'
           end
      else None
  end.

(** [match_at r s g k]: match [r] at the head of the code points [s], [g]
    being the text of group 1 so far, and go on with [k] on what is
    left. *)
Fixpoint match_at (r : regex) (s : list string) (g : option string)
         (k : list string -> option string -> option R) : option R :=
  match r with
  | Eps => k s g
  | Chr c =>
      match s with
      | x :: s' => if chr_matches c x then k s' g else None
      | [] => None
      end
  | Class c =>
      match s with
      | x :: s' => if class_matches c x then k s' g else None
      | [] => None
      end
  | Cat r1 r2 => match_at r1 s g (fun s' g' => match_at r2 s' g' k)
  | Or r1 r2 =>
      match match_at r1 s g k with
      | Some res => Some res
      | None => match_at r2 s g k
      end
  | Opt r1 =>
      match match_at r1 s g k with
      | Some res => Some res
      | None => k s g
      end
  | Plus c => plus_at c s (fun s' => k s' g)
  | Group r1 =>
      match_at r1 s g
        (fun s' _ =>
           k s' (Some (join (firstn (List.length s - List.length s') s))))
  end.
End Matcher.

(** A match anchored at the head of the code points [s]; the result is
    the text of group 1 ([None] when the group took no part). *)
Definition match_here (u : UnicodeData) (icase : bool) (r : regex)
           (s : list string) : option (option string) :=
  match_at u icase r s None (fun _ g => Some g).

(** The leftmost match in the code points [s]. *)
Fixpoint search_from (u : UnicodeData) (icase : bool) (r : regex)
         (s : list string) : option (option string) :=
  match match_here u icase r s with
  | Some g => Some g
  | None =>
      match s with
      | [] => None
      | _ :: s' => search_from u icase r s'
      end
  end.

(** [pattern.match(s)] *)
Definition re_match (u : UnicodeData) (icase : bool) (r : regex) (s : string)
  : option (option string) :=
  match_here u icase r (codepoints s).

(** [pattern.search(s)] *)
Definition re_search (u : UnicodeData) (icase : bool) (r : regex)
           (s : string) : option (option string) :=
  search_from u icase r (codepoints s).

End Py.

(* ================================================================== *)
(** * brazil_taxes.py *)
(* ================================================================== *)

Module brazil_taxes.

Open Scope float_scope.

(** The module's mutable global. *)
Record Globals : Type := { USD_TO_BRL_RATE : float }.

(** What the module reads from outside the process:
    [os.getenv('USD_TO_BRL_RATE')], already parsed by [float] ([None] when
    the variable is unset), and the rate of the exchange-rate service
    ([None] when the request fails or carries no BRL rate). *)
Record Env : Type := {
  getenv_USD_TO_BRL_RATE : option float;
  exchangerate_api_BRL : option float
}.

Definition env_rate (e : Env) : float :=
  match getenv_USD_TO_BRL_RATE e with Some r => r | None => 5.0 end.

Definition calculate_brazilian_tax (usd_price : float) : float :=
  if usd_price <=? 0 then 0.0
  else
    if usd_price <=? 50.0 then usd_price * 0.44
    else
      let tax := (usd_price * 0.92) - 20.0 in
      if tax <? 0 then 0.0 else tax.

(** Returns [(final_price_brl, tax_brl, base_price_brl)]; the second
    component of the result is the module state after the call. *)
Definition calculate_final_price_brl
           (usd_price : float) (usd_to_brl_rate : option float) (g : Globals)
  : (float * float * float) * Globals :=
  let usd_to_brl_rate :=
    match usd_to_brl_rate with
    | None => USD_TO_BRL_RATE g
    | Some r => r
    end in
  let tax_usd := calculate_brazilian_tax usd_price in
  let base_price_brl := usd_price * usd_to_brl_rate in
  let tax_brl := tax_usd * usd_to_brl_rate in
  let final_price_brl := base_price_brl + tax_brl in
  ((final_price_brl, tax_brl, base_price_brl), g).

Definition get_exchange_rate (e : Env) (use_api : bool) (g : Globals)
  : float * Globals :=
  match (if use_api then exchangerate_api_BRL e else None) with
  | Some rate =>
      if Py.truthy rate then (rate, g)
      else (env_rate e, {| USD_TO_BRL_RATE := env_rate e |})
  | None => (env_rate e, {| USD_TO_BRL_RATE := env_rate e |})
  end.

Definition update_exchange_rate (new_rate : float) (g : Globals)
  : unit * Globals :=
  (tt, {| USD_TO_BRL_RATE := new_rate |}).

Definition format_brl_price (price : float) : string :=
  let formatted := Py.format_comma_2f price in
  let formatted :=
    Py.replace "X" "."
      (Py.replace "." "," (Py.replace "," "X" formatted)) in
  ("R$ " ++ formatted)%string.

End brazil_taxes.

(* ================================================================== *)
(** * google_sheets.py: the product record *)
(* ================================================================== *)

Module google_sheets.

Record Product : Type := {
  name : string;
  category : string;
  section : string;
  base_price : float;
  final_price : float;
  tax_rate : float;
  aliexpress_link : string;
  description : string;
  sound_signature : string;
  availability : string;
  review_link : string
}.

End google_sheets.

(* ================================================================== *)
(** * deals_checker.py *)
(* ================================================================== *)

Module deals_checker.

Import Py brazil_taxes google_sheets.
Open Scope float_scope.

(** The module constants read from the environment at import time. *)
Record Config : Type := {
  ALIEXPRESS_APP_KEY : option string;
  ALIEXPRESS_APP_SECRET : option string;
  ALIEXPRESS_TRACKING_ID : string;
  TARGET_CURRENCY : string;
  QUERY_COUNTRY : string
}.

Record Deal : Type := {
  product : Product;
  current_price : float;
  original_price : float;
  discount_percent : float;
  discount_amount : float;
  currency : string;
  affiliate_link : string;
  product_id : string;
  image_url : option string;
  title : option string;
  checked_at : Z
}.

Definition is_significant_deal (self : Deal) : bool :=
  10.0 <=? discount_percent self.

(** The [product] entry of the product-detail response, as
    [_fetch_product_details_sync] reads it.  The two prices are the values
    after [float(... or 0)].  For the currency, [None] is an absent key,
    [Some None] a value that is not a string. *)
Record ProductData : Type := {
  product_title : option string;
  product_main_image_url : option string;
  target_sale_price : float;
  target_original_price : float;
  target_sale_price_currency : option (option string)
}.

(** The dictionary [_fetch_product_details_sync] returns. *)
Record Details : Type := {
  details_product_id : string;
  details_title : option string;
  details_image_url : option string;
  sale_price : float;
  details_original_price : float;
  details_currency : option string
}.

(** Everything outside the program: the network, the environment, the
    clock, and the interpreter that runs it. *)
Record World : Type := {
  (** [session.get(url, allow_redirects=True)]: status and final URL, or
      [None] for a timeout or any other exception. *)
  http_get : string -> option (Z * string);
  (** [aliexpress.affiliate.productdetail.get] for a product id, target
      currency and country: the first product of a successful response. *)
  api_productdetail_get : string -> string -> string -> option ProductData;
  (** [aliexpress.affiliate.link.generate] for a source URL and tracking
      id: the [promotion_link] of the first link of a successful response. *)
  api_link_generate : string -> string -> option string;
  env : Env;
  (** [datetime.now()] *)
  now : Z;
  (** the Unicode database of the interpreter, which [re] and
      [str.isdigit] consult *)
  unicodedata : UnicodeData
}.

Record DealsChecker : Type := {
  app_key : option string;
  app_secret : option string;
  tracking_id : string;
  min_discount_percent : float;
  checker_currency : string;
  country : string;
  (** whether [api_client] is not [None] *)
  api_client : bool
}.

(** [a or b] on optional strings. *)
Definition or_else (a : option string) (b : option string) : option string :=
  if truthy_str a then a else b.

Definition or_default (a : option string) (b : string) : string :=
  match a with
  | Some s => if nonempty s then s else b
  | None => b
  end.

(** [DealsChecker.__init__]; an omitted [min_discount_percent] is [10.0]. *)
Definition __init__ (cfg : Config)
           (app_key app_secret tracking_id : option string)
           (min_discount_percent : option float)
           (currency country : option string) : DealsChecker :=
  let key := or_else app_key (ALIEXPRESS_APP_KEY cfg) in
  let secret := or_else app_secret (ALIEXPRESS_APP_SECRET cfg) in
  {| app_key := key;
     app_secret := secret;
     tracking_id := or_default tracking_id (ALIEXPRESS_TRACKING_ID cfg);
     min_discount_percent :=
       match min_discount_percent with Some m => m | None => 10.0 end;
     checker_currency := or_default currency (TARGET_CURRENCY cfg);
     country := or_default country (QUERY_COUNTRY cfg);
     api_client := truthy_str key && truthy_str secret |}.

(** [r'/item/(\d+)\.html'] *)
Definition PRODUCT_ID_REGEX : regex :=
  Seq [Lit "/item/"; Group (Plus digit); Lit ".html"].

(** [r'https?://(?:s\.click\.aliexpress\.com/e/|a\.aliexpress\.com/_)[a-zA-Z0-9_-]+/?']
    with [re.IGNORECASE] *)
Definition SHORT_LINK_REGEX : regex :=
  Seq [Lit "http"; Opt (Chr "s"); Lit "://";
       Or (Lit "s.click.aliexpress.com/e/") (Lit "a.aliexpress.com/_");
       Plus word_or_dash; Opt (Chr "/")].

(** [r'/p/[^/]+/([0-9]+)\.html'], [r'product/([0-9]+)'] and
    [r'productId=(\d+)'] *)
Definition alt_patterns : list regex :=
  [ Seq [Lit "/p/"; Plus not_slash; Lit "/"; Group (Plus digit_0_9);
         Lit ".html"];
    Seq [Lit "product/"; Group (Plus digit_0_9)];
    Seq [Lit "productId="; Group (Plus digit)] ].

Definition normalize_domain (url : string) : string :=
  if contains ".aliexpress.us" url
  then replace ".aliexpress.us" ".aliexpress.com" url
  else url.

Definition resolve_short_link (w : World) (short_url : string)
  : option string :=
  match http_get w short_url with
  | Some (status, url) =>
      if (status =? 200)%Z && nonempty url
      then Some (normalize_domain url)
      else None
  | None => None
  end.

(** The loop over [alt_patterns]: the first pattern that matches wins. *)
Fixpoint first_alt_match (w : World) (patterns : list regex) (url : string)
  : option string :=
  match patterns with
  | [] => None
  | pattern :: rest =>
      match re_search (unicodedata w) false pattern url with
      | Some g => g
      | None => first_alt_match w rest url
      end
  end.

Definition extract_product_id (w : World) (url : string) : option string :=
  if negb (nonempty url) then None
  else
    let url := normalize_domain url in
    match re_search (unicodedata w) false PRODUCT_ID_REGEX url with
    | Some g => g
    | None => first_alt_match w alt_patterns url
    end.

Definition fetch_product_details (self : DealsChecker) (w : World)
           (product_id : string) : option Details :=
  if negb (api_client self) then None
  else
    match api_productdetail_get w product_id
            (checker_currency self) (country self) with
    | None => None
    | Some product_data =>
        Some {| details_product_id := product_id;
                details_title := product_title product_data;
                details_image_url := product_main_image_url product_data;
                sale_price := target_sale_price product_data;
                details_original_price := target_original_price product_data;
                details_currency :=
                  match target_sale_price_currency product_data with
                  | Some c => c
                  | None => Some (checker_currency self)
                  end |}
    end.

Definition generate_affiliate_link (self : DealsChecker) (w : World)
           (target_url : string) : option string :=
  if negb (api_client self) then None
  else
    let source_url :=
      if negb (contains "star.aliexpress.com" target_url)
      then "https://star.aliexpress.com/share/share.htm?&redirectUrl="
             ++ target_url
      else target_url in
    api_link_generate w source_url (tracking_id self).

(** ** [check_product_for_deal]

    The body runs under [try: ... except Exception: return None]: a raised
    exception and an early [return None] both end the evaluation without a
    Deal.  [M A] is a computation on the globals of [brazil_taxes] that
    yields an [A] or ends that way. *)

Definition M (A : Type) : Type := Globals -> option A * Globals.

Definition ret {A} (a : A) : M A := fun g => (Some a, g).

Definition bind {A B} (m : M A) (k : A -> M B) : M B :=
  fun g =>
    match m g with
    | (Some a, g') => k a g'
    | (None, g') => (None, g')
    end.

(** An optional value; [None] ends the evaluation. *)
Definition of_option {A} (o : option A) : M A := fun g => (o, g).

(** [if b: return None] *)
Definition return_None_if (b : bool) : M unit :=
  fun g => (if b then None else Some tt, g).

(** A call into [brazil_taxes], which cannot fail. *)
Definition call {A} (f : Globals -> A * Globals) : M A :=
  fun g => let (a, g') := f g in (Some a, g').

Notation "x <- m ;; k" := (bind m (fun x => k))
  (at level 61, m at next level, right associativity).
Notation "m ;;; k" := (bind m (fun _ => k))
  (at level 61, right associativity).

(** Lines 285-294: the product id, through the redirect of a short link or
    straight from the product's link. *)
Definition resolve_product_id (w : World) (product : Product)
  : option string :=
  match re_match (unicodedata w) true SHORT_LINK_REGEX
          (aliexpress_link product) with
  | Some _ =>
      let resolved_url := resolve_short_link w (aliexpress_link product) in
      match resolved_url with
      | Some url => if nonempty url then extract_product_id w url else None
      | None => None
      end
  | None => extract_product_id w (aliexpress_link product)
  end.

(** Lines 296-303: the id must be there, all digits, ten characters or
    more. *)
Definition valid_product_id (w : World) (product_id : option string)
  : option string :=
  match product_id with
  | None => None
  | Some product_id =>
      if negb (nonempty product_id) then None
      else if negb (isdigit (unicodedata w) product_id)
              || (len product_id <? 10)%nat then None
      else Some product_id
  end.

(** Lines 317-322. *)
Definition reference_price_brl (product : Product) : option float :=
  let reference_price_brl :=
    if 0 <? final_price product
    then final_price product else base_price product in
  if reference_price_brl <=? 0 then None else Some reference_price_brl.

(** Lines 328-331. *)
Definition current_price_usd (details : Details) (exchange_rate : float)
  : option float :=
  match details_currency details with
  | None => None
  | Some c =>
      if String.eqb (upper c) "BRL"
      then truediv (sale_price details) exchange_rate
      else Some (sale_price details)
  end.

(** Lines 326-333. *)
Definition current_final_brl (w : World) (details : Details) : M float :=
  exchange_rate <- call (get_exchange_rate (env w) false) ;;
  current_price_usd <- of_option (current_price_usd details exchange_rate) ;;
  res <- call (calculate_final_price_brl current_price_usd
                 (Some exchange_rate)) ;;
  ret (fst (fst res)).

(** Lines 335-344: [(discount_amount_brl, discount_percent)]. *)
Definition discount (self : DealsChecker)
           (reference_price_brl current_final_brl : float)
  : option (float * float) :=
  if reference_price_brl <=? current_final_brl then None
  else
    let discount_amount_brl := reference_price_brl - current_final_brl in
    match truediv discount_amount_brl reference_price_brl with
    | None => None
    | Some q =>
        let discount_percent := q * 100 in
        if discount_percent <? min_discount_percent self then None
        else Some (discount_amount_brl, discount_percent)
    end.

(** The condition of line 352:
    [not affiliate_link or not affiliate_link.startswith('http')]. *)
Definition not_usable (affiliate_link : option string) : bool :=
  match affiliate_link with
  | None => true
  | Some l => negb (nonempty l) || negb (startswith l "http")
  end.

(** The condition of line 355:
    [not affiliate_link or affiliate_link == '-'
     or not affiliate_link.startswith('http')]. *)
Definition invalid_link (affiliate_link : option string) : bool :=
  match affiliate_link with
  | None => true
  | Some l =>
      negb (nonempty l) || String.eqb l "-" || negb (startswith l "http")
  end.

(** Lines 348-357. *)
Definition affiliate_link_for (self : DealsChecker) (w : World)
           (product : Product) (product_id : string) : option string :=
  let affiliate_link :=
    generate_affiliate_link self w
      ("https://www.aliexpress.com/item/" ++ product_id ++ ".html") in
  let affiliate_link :=
    if not_usable affiliate_link
    then Some (aliexpress_link product) else affiliate_link in
  if invalid_link affiliate_link then None else affiliate_link.

Definition check_product_for_deal (self : DealsChecker) (w : World)
           (product : Product) : M Deal :=
  product_id <- of_option (valid_product_id w (resolve_product_id w product)) ;;
  details <- of_option (fetch_product_details self w product_id) ;;
  let current_price := sale_price details in
  return_None_if (current_price <=? 0) ;;;
  reference_price_brl <- of_option (reference_price_brl product) ;;
  current_final_brl <- current_final_brl w details ;;
  d <- of_option (discount self reference_price_brl current_final_brl) ;;
  let '(discount_amount_brl, discount_percent) := d in
  let original_price_brl := reference_price_brl in
  affiliate_link <- of_option (affiliate_link_for self w product product_id) ;;
  ret {| product := product;
         current_price := current_price;
         original_price := original_price_brl;
         discount_percent := discount_percent;
         discount_amount := discount_amount_brl;
         currency := "BRL";
         affiliate_link := affiliate_link;
         product_id := product_id;
         image_url := details_image_url details;
         title :=
           if truthy_str (details_title details)
           then details_title details else Some (name product);
         checked_at := now w |}.

(** ** [filter_best_deals] *)

(** [l.sort(key=key, reverse=True)]: the stable sort into descending key
    order.  Python compares the keys with [<] alone, and elements whose
    keys are not so ordered keep their original order, with [reverse=True]
    too.  On keys that [<] orders totally (no NaN among them) the result
    of a stable sort is determined; it is computed here by insertion. *)
Fixpoint insert_desc {A} (key : A -> float) (x : A) (sorted : list A)
  : list A :=
  match sorted with
  | [] => [x]
  | y :: rest =>
      if key x <? key y then y :: insert_desc key x rest else x :: sorted
  end.

Fixpoint sort_desc {A} (key : A -> float) (l : list A) : list A :=
  match l with
  | [] => []
  | x :: rest => insert_desc key x (sort_desc key rest)
  end.

(** [l[:n]]: a negative [n] counts from the end. *)
Definition slice_to {A} (l : list A) (n : Z) : list A :=
  if (n <? 0)%Z
  then firstn (Z.to_nat (Z.of_nat (List.length l) + n)) l
  else firstn (Z.to_nat n) l.

(** [min_discount] is [None] when the argument is omitted. *)
Definition filter_best_deals (self : DealsChecker) (deals : list Deal)
           (max_deals : Z) (min_discount : option float) : list Deal :=
  let min_discount :=
    match min_discount with
    | Some m => if truthy m then m else min_discount_percent self
    | None => min_discount_percent self
    end in
  let filtered :=
    filter (fun d => min_discount <=? discount_percent d) deals in
  let filtered := sort_desc discount_percent filtered in
  slice_to filtered max_deals.

(** ** [check_all_products] *)

(** [range(start, stop, step)] for a positive [step]; [fuel] bounds the
    number of elements, and [stop] of them are enough. *)
Fixpoint range_from (fuel start stop step : nat) : list nat :=
  match fuel with
  | O => []
  | S fuel' =>
      if (start <? stop)%nat
      then start :: range_from fuel' (start + step) stop step
      else []
  end.

Definition range (start stop step : nat) : list nat :=
  range_from stop start stop step.

(** What the run does besides computing: the batches it awaits and the
    pauses it takes, in order. *)
Inductive Event : Type :=
| Gathered (tasks : nat)
| Slept (seconds : Z).

(** [await asyncio.gather] on the tasks of a batch, with
    [return_exceptions=True]: the results in the order of the batch.  An evaluation catches its own exceptions, so
    every result is a Deal or [None]; the evaluations of a batch touch the
    globals only by storing the environment's rate, so that the order in
    which they are interleaved does not show, and they are run here one
    after the other. *)
Fixpoint gather (batch : list (M Deal)) (g : Globals)
  : list (option Deal) * Globals :=
  match batch with
  | [] => ([], g)
  | task :: rest =>
      let (result, g1) := task g in
      let (results, g2) := gather rest g1 in
      (result :: results, g2)
  end.

(** The inner loop of lines 415-419: the Deals among the results. *)
Fixpoint append_deals (deals : list Deal) (results : list (option Deal))
  : list Deal :=
  match results with
  | [] => deals
  | Some deal :: rest => append_deals (deals ++ [deal])%list rest
  | None :: rest => append_deals deals rest
  end.

Definition batch_size : nat := 5.

(** The loop of lines 411-422 over the indices [range(0, len(tasks),
    batch_size)]. *)
Fixpoint run_batches (tasks : list (M Deal)) (indices : list nat)
         (deals : list Deal) (events : list Event) (g : Globals)
  : (list Deal * list Event) * Globals :=
  match indices with
  | [] => ((deals, events), g)
  | i :: indices' =>
      let batch := firstn batch_size (skipn i tasks) in
      let (results, g') := gather batch g in
      let deals := append_deals deals results in
      let events := (events ++ [Gathered (List.length batch)])%list in
      let events :=
        if (i + batch_size <? List.length tasks)%nat
        then (events ++ [Slept 2])%list else events in
      run_batches tasks indices' deals events g'
  end.

(** The test of lines 397-403: the product has a link and, when recent
    deals are to be skipped and there is a tracker, the tracker does not
    report its link as sent within [recent_hours]. *)
Definition to_check (tracker : option (string -> Z -> bool))
           (skip_recent : bool) (recent_hours : Z) (product : Product)
  : bool :=
  if negb (nonempty (aliexpress_link product)) then false
  else
    match tracker with
    | Some was_deal_sent_recently =>
        if skip_recent
        then negb (was_deal_sent_recently (aliexpress_link product)
                                          recent_hours)
        else true
    | None => true
    end.

(** The result is the list of Deals, with the events of the run. *)
Definition check_all_products (self : DealsChecker) (w : World)
           (products : list Product)
           (tracker : option (string -> Z -> bool))
           (skip_recent : bool) (recent_hours : Z) (g : Globals)
  : (list Deal * list Event) * Globals :=
  let products_to_check :=
    filter (to_check tracker skip_recent recent_hours) products in
  let tasks := map (check_product_for_deal self w) products_to_check in
  run_batches tasks (range 0 (List.length tasks) batch_size) [] [] g.

End deals_checker.

(* ================================================================== *)
(** * telegram_notifier.py: what it computes from a Deal *)
(* ================================================================== *)

Module telegram_notifier.

Import Py brazil_taxes google_sheets deals_checker.
Open Scope float_scope.

(** The prices that [_format_deal_message] puts in a message (lines
    60-78), before they are formatted. *)
Record MessagePrices : Type := {
  original_final_brl : float;
  current_final_brl : float;
  original_base_brl : float;
  current_base_brl : float
}.

(** Lines 60-78 of [_format_deal_message].  [None] is the
    [ZeroDivisionError] of a zero rate. *)
Definition message_prices (e : Env) (deal : Deal) (g : Globals)
  : option MessagePrices * Globals :=
  let (exchange_rate, g') := get_exchange_rate e false g in
  let original_final_brl := original_price deal in
  let converted :=
    if String.eqb (upper (currency deal)) "BRL"
    then
      match truediv (current_price deal) exchange_rate with
      | Some current_price_usd =>
          Some (current_price_usd, current_price deal)
      | None => None
      end
    else Some (current_price deal, current_price deal * exchange_rate) in
  match converted with
  | None => (None, g')
  | Some (current_price_usd, current_base_brl) =>
      let current_tax_usd := calculate_brazilian_tax current_price_usd in
      let current_tax_brl := current_tax_usd * exchange_rate in
      let current_final_brl := current_base_brl + current_tax_brl in
      let original_base_brl :=
        if 0 <? base_price (product deal)
        then base_price (product deal)
        else original_final_brl / 1.5 in
      (Some {| original_final_brl := original_final_brl;
               current_final_brl := current_final_brl;
               original_base_brl := original_base_brl;
               current_base_brl := current_base_brl |}, g')
  end.

Definition _format_price (price : float) (currency : string) : string :=
  if String.eqb currency "BRL"
  then replace "X" "."
         (replace "." ","
            (replace "," "X" ("R$ " ++ format_comma_2f price)%string))
  else if String.eqb currency "USD"
  then ("$" ++ format_comma_2f price)%string
  else (currency ++ " " ++ format_comma_2f price)%string.

(** The buttons of a message: [Comprar] and [Review], each with its URL. *)
Inductive Button : Type :=
| Comprar (url : string)
| Review (url : string).

(** [s and s.startswith('http')] *)
Definition http_link (s : string) : bool := nonempty s && startswith s "http".

(** [None] when there is no button to show. *)
Definition _create_deal_keyboard (deal : Deal)
  : option (list (list Button)) :=
  let keyboard :=
    if http_link (affiliate_link deal)
    then
      [ ([Comprar (affiliate_link deal)]
           ++ (if http_link (review_link (product deal))
               then [Review (review_link (product deal))] else []))%list ]
    else if http_link (review_link (product deal))
    then [ [Review (review_link (product deal))] ]
    else [] in
  match keyboard with
  | [] => None
  | _ => Some keyboard
  end.

End telegram_notifier.

(* ================================================================== *)
(** * Order facts on binary64 numbers *)
(* ================================================================== *)

Module FloatOrder.

Open Scope float_scope.

Ltac sf_cases :=
  repeat match goal with
         | f : spec_float |- _ => destruct f as [[|]|[|]| |[|] ? ?]
         end.

Ltac cmp_cases :=
  repeat match goal with
         | |- context [Z.compare ?a ?b] => destruct (Z.compare_spec a b)
         | |- context [Pos.compare_cont Eq ?a ?b] =>
             change (Pos.compare_cont Eq a b) with (Pos.compare a b);
             destruct (Pos.compare_spec a b)
         end.

Lemma SFcompare_antisym (a b : spec_float) (c : comparison) :
  SFcompare a b = Some c -> SFcompare b a = Some (CompOpp c).
Proof.
  sf_cases; simpl; try discriminate;
    try (intros E; injection E as <-; reflexivity);
    cmp_cases; intros E; injection E as <-; simpl; try reflexivity; try lia.
Qed.

Lemma SFcompare_trans_Lt (a b c : spec_float) :
  SFcompare a b = Some Lt -> SFcompare b c = Some Lt ->
  SFcompare a c = Some Lt.
Proof.
  sf_cases; simpl; try discriminate; try reflexivity;
    try (intros; discriminate);
    cmp_cases; simpl; intros; try discriminate; try reflexivity; try lia.
Qed.

Lemma SFcompare_Lt_Eq (a b c : spec_float) :
  SFcompare a b = Some Lt -> SFcompare b c = Some Eq ->
  SFcompare a c = Some Lt.
Proof.
  sf_cases; simpl; try discriminate; try reflexivity;
    try (intros; discriminate);
    cmp_cases; simpl; intros; try discriminate; try reflexivity; try lia.
Qed.

Lemma SFcompare_Eq_Lt (a b c : spec_float) :
  SFcompare a b = Some Eq -> SFcompare b c = Some Lt ->
  SFcompare a c = Some Lt.
Proof.
  sf_cases; simpl; try discriminate; try reflexivity;
    try (intros; discriminate);
    cmp_cases; simpl; intros; try discriminate; try reflexivity; try lia.
Qed.

Lemma SFcompare_None (a b : spec_float) :
  SFcompare a b = None -> a = S754_nan \/ b = S754_nan.
Proof. sf_cases; simpl; intros; try discriminate; auto. Qed.

Lemma SFcompare_refl (a : spec_float) :
  a <> S754_nan -> SFcompare a a = Some Eq.
Proof.
  sf_cases; simpl; intros; try reflexivity; try congruence;
    rewrite Z.compare_refl;
    change (Pos.compare_cont Eq ?a ?b) with (Pos.compare a b);
    rewrite Pos.compare_refl; reflexivity.
Qed.

(** The comparison of two floats, through their specification. *)
Definition cmp (a b : float) : option comparison :=
  SFcompare (Prim2SF a) (Prim2SF b).

Lemma ltb_cmp a b : (a <? b) = true <-> cmp a b = Some Lt.
Proof.
  rewrite FloatAxioms.ltb_spec. unfold SFltb, cmp.
  destruct (SFcompare _ _) as [[]|]; split; congruence.
Qed.

Lemma leb_cmp a b :
  (a <=? b) = true <-> cmp a b = Some Lt \/ cmp a b = Some Eq.
Proof.
  rewrite FloatAxioms.leb_spec. unfold SFleb, cmp.
  destruct (SFcompare _ _) as [[]|]; split; intros; auto;
    try discriminate; destruct H; discriminate.
Qed.

Lemma eqb_cmp a b : (a =? b) = true <-> cmp a b = Some Eq.
Proof.
  rewrite FloatAxioms.eqb_spec. unfold SFeqb, cmp.
  destruct (SFcompare _ _) as [[]|]; split; congruence.
Qed.

Lemma is_nan_cmp a : is_nan a = false <-> Prim2SF a <> S754_nan.
Proof.
  unfold is_nan. rewrite negb_false_iff, eqb_cmp. unfold cmp. split.
  - intros H E. rewrite E in H. discriminate.
  - apply SFcompare_refl.
Qed.

(** [a < b] excludes [b <= a]. *)
Lemma ltb_leb_false a b : (a <? b) = true -> (b <=? a) = false.
Proof.
  rewrite ltb_cmp. intros H. apply not_true_is_false. rewrite leb_cmp.
  apply SFcompare_antisym in H. unfold cmp. rewrite H. simpl.
  intros [E|E]; discriminate.
Qed.


(** Two numbers are comparable: when [a < b] fails, [b <= a] holds. *)
Lemma ltb_false_leb a b :
  is_nan a = false -> is_nan b = false ->
  (a <? b) = false -> (b <=? a) = true.
Proof.
  rewrite !is_nan_cmp. intros Ha Hb H.
  apply not_true_iff_false in H. rewrite ltb_cmp in H.
  rewrite leb_cmp. unfold cmp in *.
  destruct (SFcompare (Prim2SF a) (Prim2SF b)) as [c|] eqn:E.
  - apply SFcompare_antisym in E. rewrite E.
    destruct c; simpl; auto. congruence.
  - apply SFcompare_None in E. tauto.
Qed.

Lemma ltb_leb_trans a b c :
  (a <? b) = true -> (b <=? c) = true -> (a <? c) = true.
Proof.
  rewrite !ltb_cmp, leb_cmp. unfold cmp. intros H [E|E].
  - eapply SFcompare_trans_Lt; eassumption.
  - eapply SFcompare_Lt_Eq; eassumption.
Qed.

Lemma leb_nan_l a b : (a <=? b) = true -> is_nan a = false.
Proof.
  intros H. apply leb_cmp in H. apply is_nan_cmp. unfold cmp in H.
  intros E. rewrite E in H. destruct H; discriminate.
Qed.

Lemma leb_nan_r a b : (a <=? b) = true -> is_nan b = false.
Proof.
  intros H. apply leb_cmp in H. apply is_nan_cmp. unfold cmp in H.
  intros E. rewrite E in H.
  destruct (Prim2SF a); destruct H; discriminate.
Qed.

(** Equal floats satisfy every boolean test alike; used to refute an
    equation between two floats that a test tells apart. *)
Lemma float_neq (a b : float) (f : float -> bool) :
  f a <> f b -> a <> b.
Proof. intros H E. apply H. rewrite E. reflexivity. Qed.

End FloatOrder.

(* ================================================================== *)
(** * Properties of the tax model *)
(* ================================================================== *)

Module TaxModel.

Import Py brazil_taxes FloatOrder.
Open Scope float_scope.

(** The [> 50] tier as the specification writes it: [0.92 p - 20],
    floored at zero. *)
Definition high_tier (foreign_price : float) : float :=
  let t := foreign_price * 0.92 - 20 in
  if t <? 0 then 0 else t.

(** C1. The tax schedule has three tiers: no tax on a price [<= 0];
    [0.44 p] for [0 < p <= 50], the boundary [50] included; and
    [0.92 p - 20], floored at zero, for [p > 50]. *)
Theorem calculate_brazilian_tax_tiers (foreign_price : float) :
  ((foreign_price <=? 0) = true ->
   calculate_brazilian_tax foreign_price = 0)
  /\ ((0 <? foreign_price) = true -> (foreign_price <=? 50) = true ->
      calculate_brazilian_tax foreign_price = foreign_price * 0.44)
  /\ calculate_brazilian_tax 50 = 50 * 0.44
  /\ ((50 <? foreign_price) = true ->
      calculate_brazilian_tax foreign_price = high_tier foreign_price).
Proof.
  unfold calculate_brazilian_tax, high_tier. repeat split.
  - intros ->. reflexivity.
  - intros Hpos Hle. rewrite (ltb_leb_false _ _ Hpos), Hle. reflexivity.
  - intros Hgt.
    rewrite (ltb_leb_false _ _ Hgt).
    destruct (foreign_price <=? 0) eqn:H0; [|reflexivity].
    pose proof (ltb_leb_trans _ _ _ Hgt H0) as Habs.
    vm_compute in Habs. discriminate.
Qed.

Lemma calculate_brazilian_tax_tiers_witness :
  calculate_brazilian_tax (-3) = 0
  /\ calculate_brazilian_tax 30 = 30 * 0.44
  /\ calculate_brazilian_tax 75 = high_tier 75.
Proof.
  split; [|split].
  - apply (proj1 (calculate_brazilian_tax_tiers (-3))). reflexivity.
  - apply (proj1 (proj2 (calculate_brazilian_tax_tiers 30))); reflexivity.
  - apply (proj2 (proj2 (proj2 (calculate_brazilian_tax_tiers 75)))).
    reflexivity.
Defined.

(** The values the specification quotes for the schedule. *)
Example calculate_brazilian_tax_75 : calculate_brazilian_tax 75 = 49.
Proof. reflexivity. Qed.

(** C4. With an explicit rate the result is the triple
    [(base + tax, tax, base)] in the domestic currency, where
    [base = p * rate] and [tax = calculate_brazilian_tax p * rate];
    for [p = 100] and [rate = 5.0]: tax 72 in the foreign currency, and
    the triple [(860, 360, 500)]. *)
Theorem calculate_final_price_brl_triple
        (foreign_price rate : float) (g : Globals) :
  (let base_domestic := foreign_price * rate in
   let tax_domestic := calculate_brazilian_tax foreign_price * rate in
   let total_domestic := base_domestic + tax_domestic in
   fst (calculate_final_price_brl foreign_price (Some rate) g)
   = (total_domestic, tax_domestic, base_domestic))
  /\ calculate_brazilian_tax 100 = 72
  /\ fst (calculate_final_price_brl 100 (Some 5.0) g) = (860, 360, 500).
Proof. repeat split. Qed.

(** C5, as the specification states it, does not hold: at 21.74 the tax
    is not zero, it is not the floored high-tier expression, and that
    expression is not zero either. *)
Lemma calculate_brazilian_tax_21_74_not_zero :
  calculate_brazilian_tax 21.74 <> 0
  /\ calculate_brazilian_tax 21.74 <> high_tier 21.74
  /\ high_tier 21.74 <> 0.
Proof.
  repeat apply conj.
  - apply (float_neq _ _ (fun x => x =? 0)). vm_compute. discriminate.
  - apply (float_neq _ _ (fun x => x <? 1)). vm_compute. discriminate.
  - apply (float_neq _ _ (fun x => x =? 0)). vm_compute. discriminate.
Qed.

(** C5, amended. 21.74 is at most 50, so it is taxed in the low tier:
    the tax is [21.74 * 0.44], about 9.5656, and not zero.  (The high-tier
    expression [0.92 * 21.74 - 20] is about 0.0008 there: its zero lies
    just below 21.74, and it is not what the function computes.) *)
Theorem calculate_brazilian_tax_21_74 :
  calculate_brazilian_tax 21.74 = 21.74 * 0.44
  /\ (9.5655 <? calculate_brazilian_tax 21.74) = true
  /\ (calculate_brazilian_tax 21.74 <? 9.5657) = true
  /\ (calculate_brazilian_tax 21.74 =? 0) = false
  /\ (0.0007 <? high_tier 21.74) = true
  /\ (high_tier 21.74 <? 0.0009) = true.
Proof. repeat split. Qed.

(** C9. With an explicit rate the result does not depend on the module
    state the call starts from, and the call leaves that state as it
    was: two invocations with the same arguments return the same triple. *)
Theorem calculate_final_price_brl_explicit_rate_stateless
        (foreign_price rate : float) (g1 g2 : Globals) :
  fst (calculate_final_price_brl foreign_price (Some rate) g1)
  = fst (calculate_final_price_brl foreign_price (Some rate) g2)
  /\ snd (calculate_final_price_brl foreign_price (Some rate) g1) = g1.
Proof. split; reflexivity. Qed.

(** By contrast, a call without a rate reads the global: this is the
    state that an explicit rate shuts out. *)
Lemma calculate_final_price_brl_default_rate_reads_global :
  fst (calculate_final_price_brl 100 None {| USD_TO_BRL_RATE := 5 |})
  = (860, 360, 500)
  /\ fst (calculate_final_price_brl 100 None {| USD_TO_BRL_RATE := 6 |})
     = (1032, 432, 600).
Proof. split; reflexivity. Qed.

End TaxModel.

(* ================================================================== *)
(** * Properties of the evaluator *)
(* ================================================================== *)

Module Evaluator.

Import Py brazil_taxes google_sheets deals_checker FloatOrder.
Open Scope float_scope.

(** The Deal that [check_product_for_deal] builds from the values of its
    stages. *)
Definition mk_deal (w : World) (p : Product) (pid : string)
           (details : Details) (ref amt pct : float) (link : string) : Deal :=
  {| product := p;
     current_price := sale_price details;
     original_price := ref;
     discount_percent := pct;
     discount_amount := amt;
     currency := "BRL";
     affiliate_link := link;
     product_id := pid;
     image_url := details_image_url details;
     title :=
       if truthy_str (details_title details)
       then details_title details else Some (name p);
     checked_at := now w |}.

(** A Deal comes out exactly when every stage lets the product through. *)
Lemma check_product_for_deal_Some self w p g d :
  fst (check_product_for_deal self w p g) = Some d <->
  exists pid details ref cur amt pct link,
    valid_product_id w (resolve_product_id w p) = Some pid
    /\ fetch_product_details self w pid = Some details
    /\ (sale_price details <=? 0) = false
    /\ reference_price_brl p = Some ref
    /\ fst (current_final_brl w details g) = Some cur
    /\ discount self ref cur = Some (amt, pct)
    /\ affiliate_link_for self w p pid = Some link
    /\ d = mk_deal w p pid details ref amt pct link.
Proof.
  unfold check_product_for_deal, bind, of_option, return_None_if, ret.
  split.
  - destruct (valid_product_id _) as [pid|] eqn:E1; [|discriminate].
    destruct (fetch_product_details _ _ _) as [details|] eqn:E2;
      [|discriminate].
    destruct (sale_price details <=? 0) eqn:E3; [discriminate|].
    destruct (reference_price_brl p) as [ref|] eqn:E4; [|discriminate].
    destruct (current_final_brl w details g) as [[cur|] g'] eqn:E5;
      [|discriminate].
    destruct (discount self ref cur) as [[amt pct]|] eqn:E6; [|discriminate].
    destruct (affiliate_link_for _ _ _ _) as [link|] eqn:E7; [|discriminate].
    simpl. intros E. injection E as <-.
    exists pid, details, ref, cur, amt, pct, link.
    rewrite E5. repeat split; assumption.
  - intros (pid & details & ref & cur & amt & pct & link
            & -> & -> & -> & -> & Hc & Hd & Hl & ->).
    destruct (current_final_brl w details g) as [o g'].
    simpl in Hc. subst o. rewrite Hd, Hl. reflexivity.
Qed.


(** The evaluation of a product whose listing has been fetched and priced
    at [cur]: what is left is the reference price, the threshold and the
    outbound link. *)
Lemma check_product_for_deal_priced self w p g pid details cur :
  valid_product_id w (resolve_product_id w p) = Some pid ->
  fetch_product_details self w pid = Some details ->
  (sale_price details <=? 0) = false ->
  fst (current_final_brl w details g) = Some cur ->
  fst (check_product_for_deal self w p g) =
    match reference_price_brl p with
    | None => None
    | Some ref =>
        match discount self ref cur with
        | None => None
        | Some (amt, pct) =>
            option_map (mk_deal w p pid details ref amt pct)
                       (affiliate_link_for self w p pid)
        end
    end.
Proof.
  intros H1 H2 H3 H4.
  unfold check_product_for_deal, bind, of_option, return_None_if, ret.
  rewrite H1, H2, H3.
  destruct (reference_price_brl p) as [ref|]; [|reflexivity].
  destruct (current_final_brl w details g) as [o g']. simpl in H4. subst o.
  destruct (discount self ref cur) as [[amt pct]|]; [|reflexivity].
  destruct (affiliate_link_for self w p pid); reflexivity.
Qed.

(** ** Sample data

    The test product of the module's [main], a checker built with the
    default configuration, and a world that answers every request. *)

Definition default_config : Config :=
  {| ALIEXPRESS_APP_KEY := Some "app-key";
     ALIEXPRESS_APP_SECRET := Some "app-secret";
     ALIEXPRESS_TRACKING_ID := "default";
     TARGET_CURRENCY := "BRL";
     QUERY_COUNTRY := "BR" |}.

Definition checker (min_discount_percent : option float)
           (currency : option string) : DealsChecker :=
  __init__ default_config None None None min_discount_percent currency None.

Definition product_with_link (link : string) : Product :=
  {| name := "Test Earphone";
     category := "EARPHONES";
     section := "in-ears";
     base_price := 100.0;
     final_price := 145.0;
     tax_rate := 45.0;
     aliexpress_link := link;
     description := "";
     sound_signature := "";
     availability := "";
     review_link := "" |}.

Definition test_product : Product :=
  product_with_link "https://s.click.aliexpress.com/e/_c30WJKMz".

Definition listing (price : float) (currency : string) : ProductData :=
  {| product_title := Some "Earphone";
     product_main_image_url := None;
     target_sale_price := price;
     target_original_price := price;
     target_sale_price_currency := Some (Some currency) |}.

(** An excerpt of the Unicode database: the Arabic-Indic digits U+0660 to
    U+0669 (the bytes [D9 A0] to [D9 A9]) are decimal digits, and the
    superscript two U+00B2 (the bytes [C2 B2]) is a digit that is not
    decimal. *)
Definition unicode_excerpt : UnicodeData :=
  fun char =>
    match char with
    | String a (String b EmptyString) =>
        if Ascii.eqb a "217"
           && (160 <=? nat_of_ascii b)%nat && (nat_of_ascii b <=? 169)%nat
        then Some Decimal
        else if Ascii.eqb a "194" && Ascii.eqb b "178" then Some Digit
        else None
    | _ => None
    end.

(** Short links redirect to a product page, the product-detail request
    returns [data], link generation returns [generated], and the
    environment leaves the rate at its default of 5.0. *)
Definition world (data : ProductData) (generated : option string) : World :=
  {| http_get := fun _ =>
       Some (200%Z, "https://www.aliexpress.com/item/1005007431129955.html");
     api_productdetail_get := fun _ _ _ => Some data;
     api_link_generate := fun _ _ => generated;
     env := {| getenv_USD_TO_BRL_RATE := None;
               exchangerate_api_BRL := None |};
     now := 0%Z;
     unicodedata := unicode_excerpt |}.

Definition g0 : Globals := {| USD_TO_BRL_RATE := 5.0 |}.

End Evaluator.

Module EvaluatorProperties.

Import Py brazil_taxes google_sheets deals_checker FloatOrder Evaluator.
Open Scope float_scope.

(** ** Priced to Thresholded *)

(** The reference price as the specification words it: the final landed
    price if positive, else the base landed price if positive, else
    none. *)
Definition spec_reference (p : Product) : option float :=
  if 0 <? final_price p then Some (final_price p)
  else if 0 <? base_price p then Some (base_price p)
  else None.




(** The test product with no final price and a base price that is not a
    number: [float] reads a cell [nan] of the sheet as a NaN. *)
Definition nan_base_product : Product :=
  {| name := "Test Earphone";
     category := "EARPHONES";
     section := "in-ears";
     base_price := nan;
     final_price := 0;
     tax_rate := 45.0;
     aliexpress_link := "https://s.click.aliexpress.com/e/_c30WJKMz";
     description := "";
     sound_signature := "";
     availability := "";
     review_link := "" |}.


(** What comes out is a Deal whose reference price and discount are
    NaN. *)
Example nan_base_product_deal :
  let d :=
    fst (check_product_for_deal (checker None None)
           (world (listing 18.5 "USD")
                  (Some "https://s.click.aliexpress.com/e/_abc"))
           nan_base_product g0) in
  spec_reference nan_base_product = None
  /\ option_map (fun d => is_nan (original_price d)) d = Some true
  /\ option_map (fun d => is_nan (discount_percent d)) d = Some true.
Proof. repeat split. Qed.



(** ** The product identifier *)

Lemma valid_product_id_Some w o pid :
  valid_product_id w o = Some pid ->
  o = Some pid /\ isdigit (unicodedata w) pid = true /\ (10 <= len pid)%nat.
Proof.
  unfold valid_product_id. destruct o as [s|]; [|discriminate].
  destruct (negb (nonempty s)); [discriminate|].
  destruct (isdigit (unicodedata w) s) eqn:Hd; [|discriminate].
  destruct (len s <? 10)%nat eqn:Hl; [discriminate|].
  simpl. intros E. injection E as <-.
  apply Nat.ltb_ge in Hl. auto.
Qed.

(** C6. A Deal is produced only if the identifier extracted from the
    product's link is all digits ([str.isdigit]) and at least ten
    characters long ([len]), and the Deal carries that very identifier;
    with no identifier, or one that is not all digits or is shorter, there
    is no Deal.  The link [.../item/1005007431129955.html] yields
    [1005007431129955]; the link [.../item/123.html] yields [123] and is
    rejected. *)
Theorem deal_requires_valid_identifier :
  (forall self w p g d,
      fst (check_product_for_deal self w p g) = Some d ->
      exists pid,
        resolve_product_id w p = Some pid
        /\ isdigit (unicodedata w) pid = true
        /\ (10 <= len pid)%nat
        /\ product_id d = pid)
  /\ (forall self w p g,
         resolve_product_id w p = None ->
         fst (check_product_for_deal self w p g) = None)
  /\ (forall self w p g pid,
         resolve_product_id w p = Some pid ->
         isdigit (unicodedata w) pid = false \/ (len pid < 10)%nat ->
         fst (check_product_for_deal self w p g) = None)
  /\ (forall w p,
         aliexpress_link p
         = "https://x.aliexpress.com/item/1005007431129955.html" ->
         resolve_product_id w p = Some "1005007431129955"
         /\ valid_product_id w (resolve_product_id w p)
            = Some "1005007431129955")
  /\ (forall self w p g,
         aliexpress_link p = "https://x.aliexpress.com/item/123.html" ->
         resolve_product_id w p = Some "123"
         /\ fst (check_product_for_deal self w p g) = None).
Proof.
  assert (Hrej : forall self w p g,
             valid_product_id w (resolve_product_id w p) = None ->
             fst (check_product_for_deal self w p g) = None).
  { intros self w p g H.
    unfold check_product_for_deal, bind, of_option. rewrite H. reflexivity. }
  repeat apply conj.
  - intros self w p g d H.
    apply check_product_for_deal_Some in H.
    destruct H as (pid & details & ref & cur & amt & pct & link
                   & Hpid & _ & _ & _ & _ & _ & _ & ->).
    apply valid_product_id_Some in Hpid. destruct Hpid as (H1 & H2 & H3).
    exists pid. auto.
  - intros self w p g H. apply Hrej. rewrite H. reflexivity.
  - intros self w p g pid H Hbad. apply Hrej. rewrite H.
    unfold valid_product_id.
    destruct (negb (nonempty pid)); [reflexivity|].
    destruct Hbad as [Hd|Hl].
    + rewrite Hd. reflexivity.
    + apply Nat.ltb_lt in Hl. rewrite Hl, orb_true_r. reflexivity.
  - intros w p H. unfold resolve_product_id. rewrite H.
    split; reflexivity.
  - intros self w p g H.
    assert (Hr : resolve_product_id w p = Some "123").
    { unfold resolve_product_id. rewrite H. reflexivity. }
    split; [exact Hr|]. apply Hrej. rewrite Hr. reflexivity.
Qed.

(** The test product, whose short link redirects to the page of product
    [1005007431129955], priced low enough to qualify. *)
Lemma deal_requires_valid_identifier_witness :
  exists pid,
    resolve_product_id
      (world (listing 10 "USD") (Some "https://s.click.aliexpress.com/e/_abc"))
      test_product = Some pid
    /\ isdigit unicode_excerpt pid = true
    /\ (10 <= len pid)%nat
    /\ pid = "1005007431129955".
Proof.
  destruct (proj1 deal_requires_valid_identifier
              (checker None None)
              (world (listing 10 "USD")
                     (Some "https://s.click.aliexpress.com/e/_abc"))
              test_product g0 _ eq_refl)
    as (pid & H1 & H2 & H3 & H4).
  exists pid. repeat split; try assumption. symmetry. exact H4.
Defined.

(** ** Listed to Priced *)

Definition landed (x rate : float) (g : Globals) : float :=
  fst (fst (fst (calculate_final_price_brl x (Some rate) g))).

(** The rate an evaluation works with: [get_exchange_rate()]. *)
Definition rate_of (w : World) (g : Globals) : float :=
  fst (get_exchange_rate (env w) false g).

(** C7 as the specification states it: the test is on the currency the
    checker is configured with. *)
Definition configured_currency_rule : Prop :=
  forall self w pid details g,
    fetch_product_details self w pid = Some details ->
    (rate_of w g =? 0) = false ->
    (details_currency details = Some (checker_currency self) ->
     fst (current_final_brl w details g)
     = Some (landed (sale_price details / rate_of w g) (rate_of w g) g))
    /\ (details_currency details <> Some (checker_currency self) ->
        fst (current_final_brl w details g)
        = Some (landed (sale_price details) (rate_of w g) g)).

Lemma Some_float_neq (a b : float) (f : float -> bool) :
  f a <> f b -> Some a <> Some b.
Proof. intros H E. injection E as E. revert E. apply float_neq with f, H. Qed.

(** C7 fails for a checker configured with USD: a listing of 100 USD has
    the configured currency, and is priced at 860 without any division,
    not at the 144 that dividing by the rate 5.0 first would give. *)
Lemma configured_currency_rule_fails : ~ configured_currency_rule.
Proof.
  intros H.
  pose (self := checker None (Some "USD")).
  pose (w := world (listing 100 "USD") None).
  destruct (H self w "1005007431129955" _ g0 eq_refl eq_refl) as [H1 _].
  specialize (H1 eq_refl). revert H1.
  apply (Some_float_neq _ _ (fun x => x =? 860)). vm_compute. discriminate.
Qed.

(** C7, amended.  The price is divided by the rate exactly when the
    listing's currency, upper-cased, is the literal [BRL]; the currency
    the checker is configured with plays no part.  For any other currency
    the price is taken as it is.  (A zero rate makes the division raise,
    and the product yields no Deal.) *)
Theorem listed_to_priced w details g c :
  details_currency details = Some c ->
  (upper c = "BRL" -> (rate_of w g =? 0) = false ->
   fst (current_final_brl w details g)
   = Some (landed (sale_price details / rate_of w g) (rate_of w g) g))
  /\ (upper c = "BRL" -> (rate_of w g =? 0) = true ->
      fst (current_final_brl w details g) = None)
  /\ (upper c <> "BRL" ->
      fst (current_final_brl w details g)
      = Some (landed (sale_price details) (rate_of w g) g)).
Proof.
  intros Hc.
  unfold current_final_brl, bind, call, of_option, ret, rate_of, landed,
    current_price_usd, truediv.
  rewrite Hc.
  destruct (get_exchange_rate (env w) false g) as [rate g'] eqn:Eg.
  assert (Hup : String.eqb (upper c) "BRL" = true <-> upper c = "BRL")
    by apply String.eqb_eq.
  simpl fst. repeat apply conj.
  - intros Hbrl Hnz. apply Hup in Hbrl. rewrite Hbrl, Hnz. reflexivity.
  - intros Hbrl Hz. apply Hup in Hbrl. rewrite Hbrl, Hz. reflexivity.
  - intros Hother.
    destruct (String.eqb (upper c) "BRL") eqn:E.
    + exfalso. apply Hother, Hup. reflexivity.
    + reflexivity.
Qed.

(** A listing of 80 BRL and one of 100 USD at the rate 5.0, for a checker
    configured with USD. *)
Lemma listed_to_priced_witness :
  fst (current_final_brl (world (listing 80 "brl") None)
         {| details_product_id := "1005007431129955";
            details_title := None; details_image_url := None;
            sale_price := 80; details_original_price := 80;
            details_currency := Some "brl" |} g0)
  = Some (landed (80 / 5) 5 g0)
  /\ fst (current_final_brl (world (listing 100 "USD") None)
            {| details_product_id := "1005007431129955";
               details_title := None; details_image_url := None;
               sale_price := 100; details_original_price := 100;
               details_currency := Some "USD" |} g0)
     = Some (landed 100 5 g0).
Proof.
  split.
  - apply (proj1 (listed_to_priced (world (listing 80 "brl") None)
                    {| details_product_id := "1005007431129955";
                       details_title := None; details_image_url := None;
                       sale_price := 80; details_original_price := 80;
                       details_currency := Some "brl" |}
                    g0 "brl" eq_refl)); reflexivity.
  - apply (proj2 (proj2 (listed_to_priced (world (listing 100 "USD") None)
                    {| details_product_id := "1005007431129955";
                       details_title := None; details_image_url := None;
                       sale_price := 100; details_original_price := 100;
                       details_currency := Some "USD" |}
                    g0 "USD" eq_refl))).
    vm_compute. discriminate.
Defined.

(** ** Thresholded to Linked *)

Definition item_url (pid : string) : string :=
  "https://www.aliexpress.com/item/" ++ pid ++ ".html".

(** The specification's "well-formed absolute URL", read as RFC 3986 has
    it: a scheme (a letter, then letters, digits, [+], [-] or [.]), the
    separator [://], and something after it.  Schemes are not
    case-sensitive. *)
Definition is_ascii_letter (c : ascii) : bool :=
  is_ascii_lower c || is_ascii_upper c.

Definition scheme_char (c : ascii) : bool :=
  is_ascii_letter c || is_ascii_digit c
  || Ascii.eqb c "+" || Ascii.eqb c "-" || Ascii.eqb c ".".

(** What follows the scheme and its colon, if [s] starts that way. *)
Fixpoint after_scheme (s : string) : option string :=
  match s with
  | EmptyString => None
  | String c s' =>
      if Ascii.eqb c ":" then Some s'
      else if scheme_char c then after_scheme s' else None
  end.

Definition well_formed_absolute_url (s : string) : bool :=
  match s with
  | EmptyString => false
  | String c s' =>
      is_ascii_letter c
      && match after_scheme s' with
         | Some rest => prefix "//" rest && (2 <? String.length rest)%nat
         | None => false
         end
  end.

(** C8 as the specification states it. *)
Definition fallback_rule : Prop :=
  forall self w p g pid details ref cur amt pct,
    valid_product_id w (resolve_product_id w p) = Some pid ->
    fetch_product_details self w pid = Some details ->
    (sale_price details <=? 0) = false ->
    reference_price_brl p = Some ref ->
    fst (current_final_brl w details g) = Some cur ->
    discount self ref cur = Some (amt, pct) ->
    not_usable (generate_affiliate_link self w (item_url pid)) = true ->
    fst (check_product_for_deal self w p g) =
      if well_formed_absolute_url (aliexpress_link p)
      then Some (mk_deal w p pid details ref amt pct (aliexpress_link p))
      else None.

Definition uppercase_scheme_product : Product :=
  product_with_link "HTTPS://www.aliexpress.com/item/1005007431129955.html".

Definition listing_80_BRL : Details :=
  {| details_product_id := "1005007431129955";
     details_title := Some "Earphone";
     details_image_url := None;
     sale_price := 80;
     details_original_price := 80;
     details_currency := Some "BRL" |}.

(** C8 fails on a product whose link is
    [HTTPS://www.aliexpress.com/item/1005007431129955.html]: the link is a
    well-formed absolute URL, the listing of 80 BRL is 20.55 percent below
    the reference of 145, link generation returns nothing, and yet there
    is no Deal, because the link does not begin with lower-case [http]. *)
Lemma fallback_rule_fails : ~ fallback_rule.
Proof.
  intros H.
  specialize (H (checker None None) (world (listing 80 "BRL") None)
                uppercase_scheme_product g0 "1005007431129955"
                listing_80_BRL 145 (80 / 5 * 5 + 80 / 5 * 0.44 * 5)
                (145 - (80 / 5 * 5 + 80 / 5 * 0.44 * 5))
                ((145 - (80 / 5 * 5 + 80 / 5 * 0.44 * 5)) / 145 * 100)
                eq_refl eq_refl eq_refl eq_refl eq_refl eq_refl eq_refl).
  vm_compute in H. discriminate.
Qed.

(** In the other direction, [http/item/1005007431129955.html] is no
    absolute URL, and the Deal is produced with it as its link. *)
Example fallback_accepts_http_prefix :
  let p := product_with_link "http/item/1005007431129955.html" in
  well_formed_absolute_url (aliexpress_link p) = false
  /\ option_map affiliate_link
       (fst (check_product_for_deal (checker None None)
               (world (listing 80 "BRL") None) p g0))
     = Some "http/item/1005007431129955.html".
Proof. split; reflexivity. Qed.

Lemma invalid_link_startswith (l : string) :
  invalid_link (Some l) = negb (startswith l "http").
Proof.
  unfold invalid_link, startswith.
  destruct l as [|c l']; [reflexivity|].
  change (nonempty (String c l')) with true. cbn [negb orb].
  destruct (prefix "http" (String c l')) eqn:E.
  - cbn [prefix] in E.
    destruct (ascii_dec "h" c) as [<-|]; [|discriminate]. reflexivity.
  - apply orb_true_r.
Qed.

(** C8, amended.  For a product that has passed the threshold, when link
    generation returns no usable link (nothing, an empty string, or a
    string that does not begin with [http]), the Deal is produced with
    the product's own link if and only if that link begins with the four
    characters [http]; otherwise there is no Deal.  The link is not
    validated any further. *)
Theorem fallback_to_original_link
        self w p g pid details ref cur amt pct :
  valid_product_id w (resolve_product_id w p) = Some pid ->
  fetch_product_details self w pid = Some details ->
  (sale_price details <=? 0) = false ->
  reference_price_brl p = Some ref ->
  fst (current_final_brl w details g) = Some cur ->
  discount self ref cur = Some (amt, pct) ->
  not_usable (generate_affiliate_link self w (item_url pid)) = true ->
  fst (check_product_for_deal self w p g) =
    if startswith (aliexpress_link p) "http"
    then Some (mk_deal w p pid details ref amt pct (aliexpress_link p))
    else None.
Proof.
  intros H1 H2 H3 H4 H5 H6 H7.
  rewrite (check_product_for_deal_priced _ _ _ _ _ _ _ H1 H2 H3 H5).
  rewrite H4, H6.
  unfold affiliate_link_for. fold (item_url pid). rewrite H7.
  rewrite invalid_link_startswith.
  destruct (startswith (aliexpress_link p) "http"); reflexivity.
Qed.

(** The product page link of the test product's redirect target, with
    link generation returning nothing: the Deal carries the product's own
    link. *)
Lemma fallback_to_original_link_witness :
  option_map affiliate_link
    (fst (check_product_for_deal (checker None None)
            (world (listing 80 "BRL") None)
            (product_with_link
               "https://www.aliexpress.com/item/1005007431129955.html")
            g0))
  = Some "https://www.aliexpress.com/item/1005007431129955.html".
Proof.
  rewrite (fallback_to_original_link
             (checker None None) (world (listing 80 "BRL") None)
             (product_with_link
                "https://www.aliexpress.com/item/1005007431129955.html")
             g0 "1005007431129955" listing_80_BRL
             145 (80 / 5 * 5 + 80 / 5 * 0.44 * 5)
             (145 - (80 / 5 * 5 + 80 / 5 * 0.44 * 5))
             ((145 - (80 / 5 * 5 + 80 / 5 * 0.44 * 5)) / 145 * 100)
             eq_refl eq_refl eq_refl eq_refl eq_refl eq_refl eq_refl).
  reflexivity.
Defined.

(** ** Significant deals *)

(** C10. A Deal is significant exactly when its discount is at least
    10.0, a constant: two Deals with the same discount are alike in this,
    whatever checkers produced them.  A checker with a minimum of 5
    qualifies a Deal of about 8.1 percent, which is not significant. *)
Theorem is_significant_deal_fixed_threshold :
  (forall d,
      is_significant_deal d = true <-> (10 <=? discount_percent d) = true)
  /\ (forall self1 self2 w1 w2 p1 p2 g1 g2 d1 d2,
         fst (check_product_for_deal self1 w1 p1 g1) = Some d1 ->
         fst (check_product_for_deal self2 w2 p2 g2) = Some d2 ->
         discount_percent d1 = discount_percent d2 ->
         is_significant_deal d1 = is_significant_deal d2)
  /\ (exists self w p g d,
         (min_discount_percent self <? 10) = true
         /\ fst (check_product_for_deal self w p g) = Some d
         /\ (min_discount_percent self <=? discount_percent d) = true
         /\ is_significant_deal d = false).
Proof.
  repeat apply conj.
  - intros d. unfold is_significant_deal. reflexivity.
  - intros. unfold is_significant_deal. congruence.
  - exists (checker (Some 5) None),
      (world (listing 18.5 "USD")
             (Some "https://s.click.aliexpress.com/e/_abc")),
      test_product, g0.
    eexists. repeat apply conj; [| vm_compute; reflexivity | |];
      reflexivity.
Qed.

End EvaluatorProperties.

(* ================================================================== *)
(** * Properties of the ranking *)
(* ================================================================== *)

Module Ranking.

Import Py brazil_taxes google_sheets deals_checker FloatOrder Evaluator.
Open Scope float_scope.

Section SortDesc.
Context {A : Type}.
Variable key : A -> float.

(** [a] may stand before [b] in descending order. *)
Definition ge_key (a b : A) : Prop := (key b <=? key a) = true.

Definition same_key (k : float) (x : A) : bool := key x =? k.

Definition is_number (x : A) : Prop := is_nan (key x) = false.

Lemma insert_desc_perm x l : Permutation (insert_desc key x l) (x :: l).
Proof.
  induction l as [|y l IH]; simpl; [reflexivity|].
  destruct (key x <? key y); [|reflexivity].
  rewrite IH. apply perm_swap.
Qed.

Lemma sort_desc_perm l : Permutation (sort_desc key l) l.
Proof.
  induction l as [|x l IH]; simpl; [reflexivity|].
  rewrite insert_desc_perm. apply perm_skip, IH.
Qed.

Lemma insert_desc_hd x y l :
  ge_key y x -> HdRel ge_key y l -> HdRel ge_key y (insert_desc key x l).
Proof.
  intros Hx Hl. destruct l as [|z l]; simpl.
  - constructor. exact Hx.
  - destruct (key x <? key z); constructor; [|exact Hx].
    inversion Hl. assumption.
Qed.

Lemma insert_desc_sorted x l :
  is_number x -> Forall is_number l ->
  Sorted ge_key l -> Sorted ge_key (insert_desc key x l).
Proof.
  intros Hx Hl Hs. induction Hs as [|y l Hs IH Hhd]; simpl.
  - repeat constructor.
  - inversion Hl as [|? ? Hy Hl']; subst.
    destruct (key x <? key y) eqn:E.
    + constructor; [apply IH, Hl'|].
      apply insert_desc_hd; [|exact Hhd].
      unfold ge_key. apply leb_cmp. left. apply ltb_cmp, E.
    + constructor; [constructor; assumption|].
      constructor. unfold ge_key. apply ltb_false_leb; assumption.
Qed.

Lemma sort_desc_sorted l :
  Forall is_number l -> Sorted ge_key (sort_desc key l).
Proof.
  induction l as [|x l IH]; simpl; intros H; [constructor|].
  inversion H; subst.
  apply insert_desc_sorted; auto.
  eapply Permutation_Forall; [|eassumption].
  symmetry. apply sort_desc_perm.
Qed.

(** Stability: the elements of any one key come out in the order they
    went in. *)
Lemma insert_desc_stable k x l :
  filter (same_key k) (insert_desc key x l)
  = filter (same_key k) (x :: l).
Proof.
  induction l as [|y l IH]; [reflexivity|].
  cbn [insert_desc]. destruct (key x <? key y) eqn:E; [|reflexivity].
  cbn [filter] in *. rewrite IH.
  destruct (same_key k x) eqn:Ex; [|reflexivity].
  assert (Ey : same_key k y = false); [|rewrite Ey; reflexivity].
  unfold same_key in *. apply not_true_is_false. intros Ey.
  apply ltb_cmp in E. apply eqb_cmp in Ex, Ey. unfold cmp in *.
  apply SFcompare_antisym in Ey. simpl in Ey.
  pose proof (SFcompare_Lt_Eq _ _ _ E (SFcompare_antisym _ _ _ Ey)) as H.
  simpl in H. congruence.
Qed.

Lemma sort_desc_stable k l :
  filter (same_key k) (sort_desc key l) = filter (same_key k) l.
Proof.
  induction l as [|x l IH]; [reflexivity|].
  cbn [sort_desc]. rewrite insert_desc_stable.
  cbn [filter]. rewrite IH. reflexivity.
Qed.
End SortDesc.

(** A Deal on the test product with the given discount. *)
Definition deal_of_discount (pct : float) : Deal :=
  mk_deal (world (listing 10 "USD") None) test_product "1005007431129955"
          {| details_product_id := "1005007431129955";
             details_title := None; details_image_url := None;
             sale_price := 10; details_original_price := 10;
             details_currency := Some "USD" |}
          145 (145 * pct / 100) pct
          "https://s.click.aliexpress.com/e/_abc".

(** What the specification asks of the ranking: the deals whose discount
    is at least [min_discount]. *)
Definition kept (min_discount : float) (deals : list Deal) : list Deal :=
  filter (fun d => min_discount <=? discount_percent d) deals.

Lemma kept_numbers m deals :
  Forall (is_number discount_percent) (kept m deals).
Proof.
  apply Forall_forall. intros d Hd. apply filter_In in Hd.
  destruct Hd as [_ Hd]. eapply leb_nan_r, Hd.
Qed.

(** For a [min_discount] other than zero and a count that is not negative,
    the ranking is what the specification says: the kept deals, in
    descending order of discount, ties in their original order, cut to
    [max_count]. *)
Lemma filter_best_deals_ranked self deals max_count m :
  truthy m = true -> (0 <= max_count)%Z ->
  let ranked := sort_desc discount_percent (kept m deals) in
  filter_best_deals self deals max_count (Some m)
  = firstn (Z.to_nat max_count) ranked
  /\ Permutation ranked (kept m deals)
  /\ Sorted (ge_key discount_percent) ranked
  /\ (forall k, filter (same_key discount_percent k) ranked
                = filter (same_key discount_percent k) (kept m deals))
  /\ (List.length (filter_best_deals self deals max_count (Some m))
      <= Z.to_nat max_count)%nat.
Proof.
  intros Hm Hmax ranked.
  assert (E : filter_best_deals self deals max_count (Some m)
              = firstn (Z.to_nat max_count) ranked).
  { unfold filter_best_deals, slice_to. rewrite Hm.
    destruct (max_count <? 0)%Z eqn:Hneg; [|reflexivity].
    apply Z.ltb_lt in Hneg. lia. }
  repeat apply conj.
  - exact E.
  - apply sort_desc_perm.
  - apply sort_desc_sorted, kept_numbers.
  - intros k. apply sort_desc_stable.
  - rewrite E. apply firstn_le_length.
Qed.

(** The example of the specification: discounts [12, 45, 8, 30] with a
    minimum of 10 and at most two deals give [45, 30]. *)
Example filter_best_deals_example :
  map discount_percent
      (filter_best_deals (checker None None)
         (map deal_of_discount [12; 45; 8; 30]) 2 (Some 10))
  = [45; 30].
Proof. reflexivity. Qed.

(** C3 at a minimum of zero.  The deals with a discount of at least zero
    are all three of [12, 5, 8], and the ranking should be [12, 8, 5];
    the function returns [12] alone: [min_discount or
    self.min_discount_percent] takes the zero for an omitted argument and
    filters by the checker's own minimum of 10. *)
Theorem filter_best_deals_zero_min_discount :
  let deals := map deal_of_discount [12; 5; 8] in
  map discount_percent
      (filter_best_deals (checker None None) deals 10 (Some 0)) = [12]
  /\ map discount_percent (sort_desc discount_percent (kept 0 deals))
     = [12; 8; 5]
  /\ filter_best_deals (checker None None) deals 10 (Some 0)
     = filter_best_deals (checker None None) deals 10 None.
Proof. repeat split. Qed.

End Ranking.

(* ================================================================== *)
(** * Properties of the link resolver *)
(* ================================================================== *)

Module Resolver.

Import Py brazil_taxes google_sheets deals_checker Evaluator.
Import EvaluatorProperties.
Open Scope nat_scope.

(** ** Code points *)

(** A code point as [codepoints] cuts it out: a byte and continuation
    bytes. *)
Definition is_char (char : string) : bool :=
  match char with
  | String _ rest => all_chars is_continuation rest
  | EmptyString => false
  end.

(** The code point does not begin with a continuation byte. *)
Definition starts_char (char : string) : bool :=
  match char with
  | String x _ => negb (is_continuation x)
  | EmptyString => false
  end.

(** The shape of the lists that [codepoints] returns; only the first
    element may begin with a continuation byte (in a text that is not the
    encoding of a [str]). *)
Definition chars (l : list string) : Prop :=
  Forall (fun c => is_char c = true) l
  /\ Forall (fun c => starts_char c = true) (tl l).

Lemma codepoints_chars s : chars (codepoints s).
Proof.
  induction s as [|x s IH]; [split; constructor|].
  cbn [codepoints]. destruct IH as [IH1 IH2].
  destruct (codepoints s) as [|[|y t] rest].
  - split; repeat constructor.
  - inversion IH1; discriminate.
  - inversion IH1 as [|? ? Hy Hrest]; subst. cbn [tl] in IH2.
    destruct (is_continuation y) eqn:Ey.
    + split; [|exact IH2]. constructor; [|exact Hrest].
      cbn [is_char all_chars]. rewrite Ey. exact Hy.
    + split; [repeat constructor; assumption|].
      cbn [tl]. constructor; [|exact IH2]. cbn [starts_char].
      rewrite Ey. reflexivity.
Qed.

Lemma chars_tail c l : chars (c :: l) -> chars l.
Proof.
  intros [H1 H2]. inversion H1; subst. cbn [tl] in H2. split; [assumption|].
  destruct l; [constructor|]. inversion H2; assumption.
Qed.

Lemma chars_app a b : chars (a ++ b)%list -> chars a /\ chars b.
Proof.
  induction a as [|c a IH]; intros H.
  - split; [split; constructor|exact H].
  - cbn [app] in H. destruct (IH (chars_tail _ _ H)) as [Ha Hb].
    split; [|exact Hb].
    destruct H as [H1 H2]. inversion H1; subst. cbn [tl] in H2.
    split.
    + constructor; [assumption|apply Ha].
    + cbn [tl]. apply Forall_app in H2. apply H2.
Qed.

(** Cutting a text made of code points gives the code points back. *)
Lemma codepoints_char x conts l :
  all_chars is_continuation conts = true ->
  Forall (fun c => starts_char c = true) l ->
  codepoints (join l) = l ->
  codepoints (String x conts ++ join l) = String x conts :: l.
Proof.
  revert x. induction conts as [|y conts IH]; intros x Hc Hl Hj.
  - cbn [append codepoints]. rewrite Hj.
    destruct l as [|[|z t] l']; [reflexivity| |].
    + inversion Hl; discriminate.
    + inversion Hl as [|? ? Hz ?]; subst. cbn [starts_char] in Hz.
      apply negb_true_iff in Hz. rewrite Hz. reflexivity.
  - cbn [all_chars] in Hc. apply andb_true_iff in Hc.
    destruct Hc as [Hy Hc].
    change (String x (String y conts) ++ join l)
      with (String x (String y conts ++ join l)).
    cbn [codepoints]. fold (codepoints (String y conts ++ join l)).
    rewrite (IH y Hc Hl Hj). rewrite Hy. reflexivity.
Qed.

Lemma codepoints_join l : chars l -> codepoints (join l) = l.
Proof.
  induction l as [|c l IH]; intros H; [reflexivity|].
  pose proof (chars_tail _ _ H) as Hl. destruct H as [H1 H2].
  inversion H1 as [|? ? Hc ?]; subst. cbn [tl] in H2.
  destruct c as [|x conts]; [discriminate|].
  cbn [join fold_right]. fold (join l).
  apply codepoints_char; auto.
Qed.

Lemma join_nonempty l : chars l -> l <> [] -> nonempty (join l) = true.
Proof.
  intros [H1 _] Hne. destruct l as [|c l]; [congruence|].
  inversion H1 as [|? ? Hc ?]; subst.
  destruct c; [discriminate|reflexivity].
Qed.

(** The code points consumed between [a ++ b] and [b]. *)
Lemma consumed_prefix {A} (a b : list A) :
  firstn (List.length (a ++ b) - List.length b) (a ++ b)%list = a.
Proof.
  rewrite length_app, Nat.add_sub, firstn_app, Nat.sub_diag, firstn_all.
  cbn [firstn]. apply app_nil_r.
Qed.

(** ** What a match consumes *)

Section MatcherFacts.
Context {R : Type}.
Variable u : UnicodeData.
Variable icase : bool.

(** A successful [c+] consumed a non-empty run of code points of the
    class and went on with what follows it. *)
Lemma plus_at_consumes c s (k : list string -> option R) res :
  plus_at u icase c s k = Some res ->
  exists run rest,
    s = (run ++ rest)%list /\ run <> []
    /\ forallb (class_matches u icase c) run = true
    /\ k rest = Some res.
Proof.
  revert res. induction s as [|x s IH]; simpl; intros res H; [discriminate|].
  destruct (class_matches u icase c x) eqn:Hx; [|discriminate].
  destruct (plus_at u icase c s k) as [res'|] eqn:Hp.
  - injection H as <-.
    destruct (IH _ eq_refl) as (run & rest & -> & _ & Hall & Hk).
    exists (x :: run), rest. simpl. rewrite Hx, Hall.
    repeat split; auto. discriminate.
  - exists [x], s. simpl. rewrite Hx. repeat split; auto. discriminate.
Qed.

(** [c+] is greedy: over a run of the class that ends where the class
    ends, it takes the whole run when the continuation accepts it. *)
Lemma plus_at_greedy c run rest (k : list string -> option R) res :
  run <> [] ->
  forallb (class_matches u icase c) run = true ->
  plus_at u icase c rest k = None ->
  k rest = Some res ->
  plus_at u icase c (run ++ rest) k = Some res.
Proof.
  intros Hne Hall Hstop Hk.
  induction run as [|x run IH]; [congruence|].
  simpl in Hall. apply andb_true_iff in Hall. destruct Hall as [Hx Hall].
  simpl. rewrite Hx.
  destruct run as [|y run].
  - simpl. rewrite Hstop. exact Hk.
  - rewrite IH; auto. discriminate.
Qed.
End MatcherFacts.

(** A search that succeeds is a match at some position. *)
Lemma search_from_is_match u icase r s res :
  search_from u icase r s = Some res ->
  exists skipped rest,
    s = (skipped ++ rest)%list /\ match_here u icase r rest = Some res.
Proof.
  induction s as [|x s IH]; simpl.
  - destruct (match_here u icase r []) eqn:E; [|discriminate].
    intros H. injection H as <-. exists [], []. auto.
  - destruct (match_here u icase r (x :: s)) eqn:E.
    + intros H. injection H as <-. exists [], (x :: s). auto.
    + intros H. destruct (IH H) as (sk & rest & -> & Hm).
      exists (x :: sk), rest. auto.
Qed.

Lemma search_from_skip u icase r x s :
  match_here u icase r (x :: s) = None ->
  search_from u icase r (x :: s) = search_from u icase r s.
Proof. intros H. simpl. rewrite H. reflexivity. Qed.

Lemma search_from_here u icase r s res :
  match_here u icase r s = Some res -> search_from u icase r s = Some res.
Proof. intros H. destruct s; simpl; rewrite H; reflexivity. Qed.

(** ** Every pattern captures digits *)

(** The patterns of the module: their only group is [(\d+)] or
    [([0-9]+)]. *)
Inductive digit_group : regex -> Prop :=
| dg_Eps : digit_group Eps
| dg_Chr c : digit_group (Chr c)
| dg_Class c : digit_group (Class c)
| dg_Cat r1 r2 : digit_group r1 -> digit_group r2 -> digit_group (Cat r1 r2)
| dg_Or r1 r2 : digit_group r1 -> digit_group r2 -> digit_group (Or r1 r2)
| dg_Opt r : digit_group r -> digit_group (Opt r)
| dg_Plus c : digit_group (Plus c)
| dg_Group : digit_group (Group (Plus digit))
| dg_Group_0_9 : digit_group (Group (Plus digit_0_9)).

Lemma digit_group_Lit s : digit_group (Lit s).
Proof. induction s; simpl; repeat constructor; assumption. Qed.

Lemma digit_group_Seq rs : Forall digit_group rs -> digit_group (Seq rs).
Proof.
  induction 1; simpl; [constructor|]. constructor; assumption.
Qed.

Create HintDb dg.
#[local] Hint Constructors digit_group Forall : dg.
#[local] Hint Resolve digit_group_Lit digit_group_Seq : dg.

Lemma digit_group_PRODUCT_ID_REGEX : digit_group PRODUCT_ID_REGEX.
Proof. unfold PRODUCT_ID_REGEX. auto 10 with dg. Qed.

Lemma digit_group_alt_patterns : Forall digit_group alt_patterns.
Proof. unfold alt_patterns. auto 10 with dg. Qed.

(** The text of group 1, when there is one, passes [str.isdigit]. *)
Definition digits_if_any (u : UnicodeData) (g : option string) : Prop :=
  match g with
  | Some s => isdigit u s = true
  | None => True
  end.

(** What [\d] matches is a digit, and so is what [[0-9]] matches. *)
Lemma digit_is_digit u char :
  class_matches u false digit char = true -> is_digit u char = true.
Proof.
  unfold class_matches, digit, is_decimal, is_digit.
  destruct (numeric_type u char) as [[]|]; intros; congruence.
Qed.

Lemma digit_0_9_is_digit u char :
  class_matches u false digit_0_9 char = true -> is_digit u char = true.
Proof.
  unfold class_matches, digit_0_9, in_set, is_digit, numeric_type.
  destruct char as [|x [|y t]]; try discriminate.
  intros H. apply andb_true_iff in H. destruct H as [-> ->]. reflexivity.
Qed.

Lemma isdigit_run u c run :
  c = digit \/ c = digit_0_9 ->
  chars run -> run <> [] ->
  forallb (class_matches u false c) run = true ->
  isdigit u (join run) = true.
Proof.
  intros Hc Hrun Hne Hall. unfold isdigit.
  rewrite (join_nonempty run Hrun Hne), (codepoints_join run Hrun).
  cbn [andb]. clear Hrun Hne.
  induction run as [|x run IH]; [reflexivity|].
  cbn [forallb] in *. apply andb_true_iff in Hall.
  destruct Hall as [Hx Hall]. rewrite (IH Hall), andb_true_r.
  destruct Hc as [-> | ->];
    [apply digit_is_digit|apply digit_0_9_is_digit]; exact Hx.
Qed.

Lemma match_at_digits u r :
  digit_group r ->
  forall s g (k : list string -> option string -> option (option string)),
    chars s ->
    digits_if_any u g ->
    (forall s' g' res,
        chars s' -> digits_if_any u g' -> k s' g' = Some res ->
        digits_if_any u res) ->
    forall res, match_at u false r s g k = Some res -> digits_if_any u res.
Proof.
  induction 1; intros s g k Hs Hg Hk res; simpl.
  - apply Hk; assumption.
  - destruct s as [|x s]; [discriminate|].
    destruct (chr_matches false c x); [|discriminate].
    apply Hk; [eapply chars_tail; eassumption|exact Hg].
  - destruct s as [|x s]; [discriminate|].
    destruct (class_matches u false c x); [|discriminate].
    apply Hk; [eapply chars_tail; eassumption|exact Hg].
  - apply IHdigit_group1; [exact Hs|exact Hg|].
    intros s' g' res' Hs' Hg'. apply IHdigit_group2; assumption.
  - destruct (match_at u false r1 s g k) as [res1|] eqn:E1.
    + intros H1. injection H1 as <-. eapply IHdigit_group1; eassumption.
    + eapply IHdigit_group2; eassumption.
  - destruct (match_at u false r s g k) as [res1|] eqn:E1.
    + intros H1. injection H1 as <-. eapply IHdigit_group; eassumption.
    + apply Hk; assumption.
  - intros H. apply plus_at_consumes in H.
    destruct H as (run & rest & -> & _ & _ & H).
    eapply Hk; [|exact Hg|exact H]. apply (chars_app _ _ Hs).
  - intros H. apply plus_at_consumes in H.
    destruct H as (run & rest & -> & Hne & Hall & H).
    rewrite consumed_prefix in H. destruct (chars_app _ _ Hs) as [Hrun Hrest].
    eapply Hk; [exact Hrest| |exact H].
    simpl. apply (isdigit_run u digit); auto.
  - intros H. apply plus_at_consumes in H.
    destruct H as (run & rest & -> & Hne & Hall & H).
    rewrite consumed_prefix in H. destruct (chars_app _ _ Hs) as [Hrun Hrest].
    eapply Hk; [exact Hrest| |exact H].
    simpl. apply (isdigit_run u digit_0_9); auto.
Qed.

Lemma re_search_digits u r s res :
  digit_group r -> re_search u false r s = Some res -> digits_if_any u res.
Proof.
  intros Hr H. unfold re_search in H. apply search_from_is_match in H.
  destruct H as (skipped & rest & E & H). unfold match_here in H.
  assert (Hrest : chars rest).
  { pose proof (codepoints_chars s) as Hs. rewrite E in Hs.
    apply (chars_app _ _ Hs). }
  eapply (match_at_digits u r Hr); [exact Hrest| | |exact H]; simpl; auto.
  intros s' g' res' _ Hg' E'. injection E' as <-. exact Hg'.
Qed.

Lemma first_alt_match_digits w patterns url pid :
  Forall digit_group patterns ->
  first_alt_match w patterns url = Some pid ->
  isdigit (unicodedata w) pid = true.
Proof.
  induction 1 as [|r rs Hr Hrs IH]; simpl; [discriminate|].
  destruct (re_search (unicodedata w) false r url) as [g|] eqn:E; [|exact IH].
  intros ->. apply (re_search_digits _ _ _ _ Hr E).
Qed.

(** X1. Whatever the URL, an identifier that [extract_product_id] returns
    is a non-empty string of digits: it passes [str.isdigit]. *)
Theorem extract_product_id_digits w url pid :
  extract_product_id w url = Some pid -> isdigit (unicodedata w) pid = true.
Proof.
  unfold extract_product_id.
  destruct (negb (nonempty url)); [discriminate|].
  destruct (re_search (unicodedata w) false PRODUCT_ID_REGEX _) as [g|] eqn:E.
  - intros ->.
    apply (re_search_digits _ _ _ _ digit_group_PRODUCT_ID_REGEX E).
  - apply first_alt_match_digits, digit_group_alt_patterns.
Qed.

Lemma extract_product_id_digits_witness :
  isdigit unicode_excerpt "1005007431129955" = true.
Proof.
  apply (extract_product_id_digits
           (world (listing 10 "USD") None)
           "https://pt.aliexpress.us/p/fones/1005007431129955.html?x=1").
  reflexivity.
Defined.

(** ** Digits beyond ASCII *)

(** The Arabic-Indic digit of value [d]. *)
Definition arabic_indic (d : nat) : string :=
  String "217" (String (ascii_of_nat (160 + d)) EmptyString).

(** [1005007431] in Arabic-Indic digits. *)
Definition arabic_indic_id : string :=
  join (map arabic_indic [1; 0; 0; 5; 0; 0; 7; 4; 3; 1]).

(** [\d] and [str.isdigit] go by the Unicode database: an interpreter
    that knows the Arabic-Indic digits finds the identifier in
    [.../item/<id>.html], counts its ten characters (in twenty bytes), and
    the evaluation yields a Deal with it. *)
Example arabic_indic_identifier :
  let w := world (listing 80 "BRL") None in
  let p :=
    product_with_link
      ("https://x.aliexpress.com/item/" ++ arabic_indic_id ++ ".html") in
  resolve_product_id w p = Some arabic_indic_id
  /\ isdigit (unicodedata w) arabic_indic_id = true
  /\ len arabic_indic_id = 10
  /\ String.length arabic_indic_id = 20
  /\ option_map product_id
       (fst (check_product_for_deal (checker None None) w p g0))
     = Some arabic_indic_id.
Proof. repeat split. Qed.

(** [[0-9]] is ASCII only: the second fallback pattern does not find
    that identifier, the third one, with [\d], does. *)
Example arabic_indic_fallback_patterns :
  let w := world (listing 80 "BRL") None in
  extract_product_id w ("https://x.aliexpress.com/product/" ++ arabic_indic_id)
  = None
  /\ extract_product_id w
       ("https://x.aliexpress.com/?productId=" ++ arabic_indic_id)
     = Some arabic_indic_id.
Proof. split; reflexivity. Qed.

(** The superscript two is a digit for [str.isdigit], and no pattern
    takes it. *)
Example superscript_two_not_decimal :
  let two := String "194" (String "178" EmptyString) in
  isdigit unicode_excerpt two = true
  /\ extract_product_id (world (listing 80 "BRL") None)
       ("https://x.aliexpress.com/item/" ++ two ++ ".html") = None.
Proof. split; reflexivity. Qed.

(** With [re.IGNORECASE] the Kelvin sign stands for the [k] of [click],
    the long s for an [s], and the dotless i for an [i]: these links are
    short links, and an upper-case [HTTPS] is one too. *)
Example short_link_ignorecase :
  let short link := re_match unicode_excerpt true SHORT_LINK_REGEX link in
  short ("https://s.clic" ++ U212A ++ ".aliexpress.com/e/_abc") = Some None
  /\ short ("http" ++ U017F ++ "://a.aliexpress.com/_abc") = Some None
  /\ short ("https://s.cl" ++ U0131 ++ "ck.al" ++ U0130 ++ "express.com/e/_abc")
     = Some None
  /\ short "HTTPS://S.CLICK.ALIEXPRESS.COM/E/_abc" = Some None
  /\ short "https://www.aliexpress.com/item/1005007431129955.html" = None.
Proof. repeat split. Qed.

(** ** The canonical item URL *)

Lemma contains_skip sub x s :
  prefix sub (String x s) = false ->
  contains sub (String x s) = contains sub s.
Proof.
  intros H.
  change (contains sub (String x s))
    with (prefix sub (String x s) || contains sub s).
  rewrite H. reflexivity.
Qed.

Lemma digit_not_dot c rest tail :
  is_ascii_digit c = true ->
  prefix (String "." rest) (String c tail) = false.
Proof.
  intros H. cbn [prefix].
  destruct (ascii_dec "." c) as [<-|]; [discriminate|reflexivity].
Qed.

(** A digit string followed by [.html] holds no [.aliexpress.us]. *)
Lemma digits_html_other_domain pid :
  all_chars is_ascii_digit pid = true ->
  contains ".aliexpress.us" (pid ++ ".html") = false.
Proof.
  induction pid as [|c pid IH]; [reflexivity|].
  cbn [all_chars append]. intros H. apply andb_true_iff in H.
  destruct H as [Hc H].
  rewrite contains_skip by (apply digit_not_dot, Hc). auto.
Qed.

Lemma item_url_normalized pid :
  all_chars is_ascii_digit pid = true ->
  normalize_domain (item_url pid) = item_url pid.
Proof.
  intros H. unfold normalize_domain, item_url. cbn [append].
  repeat (rewrite contains_skip by reflexivity).
  rewrite (digits_html_other_domain pid H). reflexivity.
Qed.

(** A string of the digits [0] to [9], and not an empty one. *)
Definition ascii_digits (s : string) : bool :=
  match s with
  | EmptyString => false
  | _ => all_chars is_ascii_digit s
  end.

(** An ASCII character as a code point. *)
Definition char_of (c : ascii) : string := String c EmptyString.

Lemma ascii_digit_is_ascii c : is_ascii_digit c = true -> is_ascii c = true.
Proof.
  destruct c as [[] [] [] [] [] [] [] []]; try reflexivity;
    intros H; vm_compute in H; discriminate.
Qed.

Lemma ascii_not_continuation c :
  is_ascii c = true -> is_continuation c = false.
Proof. destruct c as [? ? ? ? ? ? ? []]; [discriminate|reflexivity]. Qed.

(** The code points of ASCII text are its characters. *)
Lemma codepoints_ascii s :
  all_chars is_ascii s = true ->
  codepoints s = map char_of (list_ascii_of_string s).
Proof.
  induction s as [|x s IH]; [reflexivity|].
  cbn [all_chars]. intros H. apply andb_true_iff in H. destruct H as [_ H].
  cbn [codepoints list_ascii_of_string map]. rewrite (IH H).
  destruct s as [|y s]; [reflexivity|].
  cbn [all_chars] in H. apply andb_true_iff in H. destruct H as [Hy _].
  cbn [list_ascii_of_string map]. unfold char_of at 1.
  rewrite (ascii_not_continuation y Hy). reflexivity.
Qed.

Lemma all_chars_append p (a b : string) :
  all_chars p (a ++ b) = all_chars p a && all_chars p b.
Proof.
  induction a as [|c a IH]; simpl; [reflexivity|].
  now rewrite IH, andb_assoc.
Qed.

Lemma list_ascii_of_string_append (a b : string) :
  list_ascii_of_string (a ++ b)
  = (list_ascii_of_string a ++ list_ascii_of_string b)%list.
Proof. induction a as [|c a IH]; simpl; [reflexivity|]. now rewrite IH. Qed.

Lemma join_char_of s : join (map char_of (list_ascii_of_string s)) = s.
Proof. induction s as [|c s IH]; simpl; [reflexivity|]. now rewrite IH. Qed.

Lemma digits_are_ascii s :
  all_chars is_ascii_digit s = true -> all_chars is_ascii s = true.
Proof.
  induction s as [|c s IH]; [reflexivity|]. cbn [all_chars].
  intros H. apply andb_true_iff in H. destruct H as [Hc H].
  rewrite (ascii_digit_is_ascii c Hc), (IH H). reflexivity.
Qed.

(** X2. The item URL that the evaluator builds from an identifier leads
    back to it: for every non-empty string [pid] of the digits [0] to
    [9], [extract_product_id] of
    [https://www.aliexpress.com/item/<pid>.html] is [pid]. *)
Theorem extract_product_id_item_url w pid :
  ascii_digits pid = true -> extract_product_id w (item_url pid) = Some pid.
Proof.
  intros Hd.
  assert (Hne : pid <> "") by (destruct pid; [discriminate|discriminate]).
  assert (Hall : all_chars is_ascii_digit pid = true)
    by (destruct pid; [discriminate|exact Hd]).
  unfold extract_product_id.
  rewrite (item_url_normalized pid Hall).
  replace (nonempty (item_url pid)) with true by reflexivity.
  cbn [negb]. unfold re_search.
  rewrite codepoints_ascii.
  2:{ unfold item_url. rewrite !all_chars_append, (digits_are_ascii pid Hall).
      reflexivity. }
  unfold item_url. rewrite !list_ascii_of_string_append, !map_app.
  cbn [list_ascii_of_string map app].
  repeat (rewrite search_from_skip by reflexivity).
  rewrite (search_from_here _ false PRODUCT_ID_REGEX _ (Some pid));
    [reflexivity|].
  unfold match_here, PRODUCT_ID_REGEX, Seq. cbn [fold_right Lit match_at].
  replace (chr_matches false "/" (char_of "/")) with true by reflexivity.
  replace (chr_matches false "i" (char_of "i")) with true by reflexivity.
  replace (chr_matches false "t" (char_of "t")) with true by reflexivity.
  replace (chr_matches false "e" (char_of "e")) with true by reflexivity.
  replace (chr_matches false "m" (char_of "m")) with true by reflexivity.
  apply plus_at_greedy.
  - destruct pid; [congruence|discriminate].
  - clear Hd Hne. induction pid as [|c pid IH]; [reflexivity|].
    cbn [all_chars] in Hall. apply andb_true_iff in Hall.
    destruct Hall as [Hc Hall].
    cbn [list_ascii_of_string map forallb]. rewrite (IH Hall), andb_true_r.
    unfold class_matches, digit, is_decimal, numeric_type, char_of.
    rewrite (ascii_digit_is_ascii c Hc), Hc. reflexivity.
  - reflexivity.
  - rewrite consumed_prefix, join_char_of. reflexivity.
Qed.

Lemma extract_product_id_item_url_witness :
  extract_product_id (world (listing 10 "USD") None)
    (item_url "1005007431129955")
  = Some "1005007431129955".
Proof. apply extract_product_id_item_url. reflexivity. Defined.

End Resolver.

(* ================================================================== *)
(** * Invariants of the evaluator *)
(* ================================================================== *)

Module EvaluatorInvariants.

Import Py brazil_taxes google_sheets deals_checker FloatOrder Evaluator.
Import EvaluatorProperties.
Open Scope float_scope.

(** The landed price of a foreign price at a rate. *)
Definition landed_price (usd_price rate : float) : float :=
  usd_price * rate + calculate_brazilian_tax usd_price * rate.

(** The pricing step reads the rate from the environment, whatever the
    global holds, and leaves that rate in the global. *)
Lemma current_final_brl_run w details g :
  current_final_brl w details g =
    (option_map (fun usd => landed_price usd (env_rate (env w)))
                (current_price_usd details (env_rate (env w))),
     {| USD_TO_BRL_RATE := env_rate (env w) |}).
Proof.
  unfold current_final_brl, bind, call, of_option, ret, get_exchange_rate.
  simpl.
  destruct (current_price_usd details (env_rate (env w))); reflexivity.
Qed.

(** X3. The outcome of an evaluation does not depend on the rate the
    module global holds when it starts: a rate set with
    [update_exchange_rate] is replaced by the environment's before it is
    used.  After an evaluation that produced a Deal the global holds the
    environment's rate. *)
Theorem evaluation_ignores_global_rate self w p :
  (forall g1 g2,
      fst (check_product_for_deal self w p g1)
      = fst (check_product_for_deal self w p g2))
  /\ (forall new_rate g,
         fst (check_product_for_deal self w p
                (snd (update_exchange_rate new_rate g)))
         = fst (check_product_for_deal self w p g))
  /\ (forall g d,
         fst (check_product_for_deal self w p g) = Some d ->
         snd (check_product_for_deal self w p g)
         = {| USD_TO_BRL_RATE := env_rate (env w) |}).
Proof.
  assert (H : forall g1 g2,
             fst (check_product_for_deal self w p g1)
             = fst (check_product_for_deal self w p g2)).
  { intros g1 g2.
    unfold check_product_for_deal, bind, of_option, return_None_if, ret.
    destruct (valid_product_id _) as [pid|]; [|reflexivity].
    destruct (fetch_product_details _ _ _) as [details|]; [|reflexivity].
    destruct (sale_price details <=? 0); [reflexivity|].
    destruct (reference_price_brl p) as [ref|]; [|reflexivity].
    rewrite !current_final_brl_run.
    destruct (option_map _ _) as [cur|]; [|reflexivity].
    destruct (discount self ref cur) as [[amt pct]|]; [|reflexivity].
    destruct (affiliate_link_for _ _ _ _); reflexivity. }
  repeat apply conj.
  - exact H.
  - intros. apply H.
  - intros g d.
    unfold check_product_for_deal, bind, of_option, return_None_if, ret.
    destruct (valid_product_id _) as [pid|]; [|discriminate].
    destruct (fetch_product_details _ _ _) as [details|]; [|discriminate].
    destruct (sale_price details <=? 0); [discriminate|].
    destruct (reference_price_brl p) as [ref|]; [|discriminate].
    rewrite !current_final_brl_run.
    destruct (option_map _ _) as [cur|]; [|discriminate].
    destruct (discount self ref cur) as [[amt pct]|]; [|discriminate].
    destruct (affiliate_link_for _ _ _ _); [reflexivity|discriminate].
Qed.

Lemma evaluation_ignores_global_rate_witness :
  snd (check_product_for_deal (checker None None)
         (world (listing 80 "BRL") None)
         (product_with_link
            "https://www.aliexpress.com/item/1005007431129955.html")
         {| USD_TO_BRL_RATE := 7 |})
  = {| USD_TO_BRL_RATE := 5 |}.
Proof.
  exact (proj2 (proj2 (evaluation_ignores_global_rate
                         (checker None None)
                         (world (listing 80 "BRL") None)
                         (product_with_link
                            "https://www.aliexpress.com/item/1005007431129955.html")))
           {| USD_TO_BRL_RATE := 7 |} _ eq_refl).
Defined.

Lemma affiliate_link_for_http self w p pid link :
  affiliate_link_for self w p pid = Some link ->
  startswith link "http" = true
  /\ (link = aliexpress_link p
      \/ generate_affiliate_link self w (item_url pid) = Some link).
Proof.
  unfold affiliate_link_for. fold (item_url pid).
  destruct (not_usable _) eqn:Hn.
  - rewrite invalid_link_startswith.
    destruct (startswith (aliexpress_link p) "http") eqn:Hs; [|discriminate].
    simpl. intros E. injection E as <-. auto.
  - destruct (generate_affiliate_link self w (item_url pid)) as [l|];
      [|discriminate].
    rewrite invalid_link_startswith.
    destruct (startswith l "http") eqn:Hs; [|discriminate].
    simpl. intros E. injection E as <-. auto.
Qed.

(** X4. The outbound link of every Deal begins with [http]; it is the
    link that generation returned for the item URL of the Deal's
    identifier or, failing that, the product's own link. *)
Theorem deal_link_is_http self w p g d :
  fst (check_product_for_deal self w p g) = Some d ->
  startswith (affiliate_link d) "http" = true
  /\ (affiliate_link d = aliexpress_link p
      \/ generate_affiliate_link self w (item_url (product_id d))
         = Some (affiliate_link d)).
Proof.
  intros H. apply check_product_for_deal_Some in H.
  destruct H as (pid & details & ref & cur & amt & pct & link
                 & _ & _ & _ & _ & _ & _ & Hl & ->).
  simpl. apply affiliate_link_for_http, Hl.
Qed.

Lemma deal_link_is_http_witness :
  startswith "https://s.click.aliexpress.com/e/_abc" "http" = true
  /\ ("https://s.click.aliexpress.com/e/_abc"
      = "https://s.click.aliexpress.com/e/_c30WJKMz"
      \/ generate_affiliate_link (checker None None)
           (world (listing 10 "USD")
                  (Some "https://s.click.aliexpress.com/e/_abc"))
           (item_url "1005007431129955")
         = Some "https://s.click.aliexpress.com/e/_abc").
Proof.
  exact (deal_link_is_http (checker None None)
           (world (listing 10 "USD")
                  (Some "https://s.click.aliexpress.com/e/_abc"))
           test_product g0 _ eq_refl).
Defined.

(** X5. A checker that has no app key or no app secret, neither as an
    argument nor in the configuration, has no API client, and never
    produces a Deal. *)
Theorem no_credentials_no_deal
        cfg key secret tracking min_discount cur cty w p g :
  truthy_str (or_else key (ALIEXPRESS_APP_KEY cfg)) = false
  \/ truthy_str (or_else secret (ALIEXPRESS_APP_SECRET cfg)) = false ->
  let self := __init__ cfg key secret tracking min_discount cur cty in
  api_client self = false
  /\ fst (check_product_for_deal self w p g) = None.
Proof.
  intros H self.
  assert (Ha : api_client self = false).
  { unfold self, __init__. simpl.
    destruct H as [-> | ->]; [reflexivity|apply andb_false_r]. }
  split; [exact Ha|].
  unfold check_product_for_deal, bind, of_option.
  destruct (valid_product_id _) as [pid|]; [|reflexivity].
  unfold fetch_product_details. rewrite Ha. reflexivity.
Qed.

Lemma no_credentials_no_deal_witness :
  fst (check_product_for_deal
         (__init__ {| ALIEXPRESS_APP_KEY := Some "app-key";
                      ALIEXPRESS_APP_SECRET := None;
                      ALIEXPRESS_TRACKING_ID := "default";
                      TARGET_CURRENCY := "BRL";
                      QUERY_COUNTRY := "BR" |}
                   None (Some "") None None None None)
         (world (listing 10 "USD") None) test_product g0) = None.
Proof.
  apply (no_credentials_no_deal
           {| ALIEXPRESS_APP_KEY := Some "app-key";
              ALIEXPRESS_APP_SECRET := None;
              ALIEXPRESS_TRACKING_ID := "default";
              TARGET_CURRENCY := "BRL";
              QUERY_COUNTRY := "BR" |}
           None (Some "") None None None None).
  right. reflexivity.
Defined.

(** X6. A product whose link is a short link yields no Deal when the
    redirect cannot be followed: the request fails, ends with a status
    other than 200, or ends at an empty URL.  The short link itself is
    never searched for an identifier. *)
Theorem unresolved_short_link_no_deal self w p g :
  re_match (unicodedata w) true SHORT_LINK_REGEX (aliexpress_link p)
  <> None ->
  (http_get w (aliexpress_link p) = None
   \/ exists status url,
       http_get w (aliexpress_link p) = Some (status, url)
       /\ (status <> 200%Z \/ url = "")) ->
  resolve_product_id w p = None
  /\ fst (check_product_for_deal self w p g) = None.
Proof.
  intros Hshort Hfail.
  assert (Hr : resolve_product_id w p = None).
  { unfold resolve_product_id, resolve_short_link.
    destruct (re_match (unicodedata w) true SHORT_LINK_REGEX
                (aliexpress_link p));
      [|congruence].
    destruct Hfail as [-> | (status & url & -> & Hbad)]; [reflexivity|].
    destruct Hbad as [Hs | ->].
    - apply Z.eqb_neq in Hs. rewrite Hs. reflexivity.
    - rewrite andb_false_r. reflexivity. }
  split; [exact Hr|].
  unfold check_product_for_deal, bind, of_option. rewrite Hr. reflexivity.
Qed.

Lemma unresolved_short_link_no_deal_witness :
  fst (check_product_for_deal (checker None None)
         {| http_get := fun _ => Some (404%Z, "https://www.aliexpress.com/");
            api_productdetail_get := fun _ _ _ => Some (listing 10 "USD");
            api_link_generate := fun _ _ => None;
            env := {| getenv_USD_TO_BRL_RATE := None;
                      exchangerate_api_BRL := None |};
            now := 0%Z;
            unicodedata := unicode_excerpt |}
         test_product g0) = None.
Proof.
  apply unresolved_short_link_no_deal.
  - vm_compute. discriminate.
  - right. exists 404%Z, "https://www.aliexpress.com/".
    split; [reflexivity|]. left. discriminate.
Defined.

(** X21. Every Deal carries the product it was computed for and the tag
    [BRL]; its [current_price] is the listing's sale price as fetched,
    in the listing's own currency, and is not zero or less; its
    [original_price] is the product's final price when that is above
    zero and its base price otherwise, and is not zero or less. *)
Theorem deal_fields self w p g d :
  fst (check_product_for_deal self w p g) = Some d ->
  product d = p
  /\ currency d = "BRL"
  /\ (exists details,
         fetch_product_details self w (product_id d) = Some details
         /\ current_price d = sale_price details)
  /\ (current_price d <=? 0) = false
  /\ original_price d
     = (if 0 <? final_price p then final_price p else base_price p)
  /\ (original_price d <=? 0) = false.
Proof.
  intros H. apply check_product_for_deal_Some in H.
  destruct H as (pid & details & ref & cur & amt & pct & link
                 & _ & Hfetch & Hprice & Href & _ & _ & _ & ->).
  simpl.
  assert (Hr : ref = (if 0 <? final_price p
                      then final_price p else base_price p)
               /\ (ref <=? 0) = false).
  { unfold reference_price_brl in Href. cbv zeta in Href.
    set (r := if 0 <? final_price p then final_price p else base_price p)
      in *.
    destruct (r <=? 0) eqn:E; [discriminate|].
    injection Href as <-. auto. }
  destruct Hr as [Hr1 Hr2].
  repeat split; auto. exists details. auto.
Qed.

Lemma deal_fields_witness :
  match fst (check_product_for_deal (checker None None)
               (world (listing 10 "USD")
                      (Some "https://s.click.aliexpress.com/e/_abc"))
               test_product g0) with
  | Some d => (current_price d <=? 0) = false /\ original_price d = 145
  | None => False
  end.
Proof.
  destruct (fst (check_product_for_deal (checker None None)
                   (world (listing 10 "USD")
                          (Some "https://s.click.aliexpress.com/e/_abc"))
                   test_product g0)) as [d|] eqn:E;
    [|vm_compute in E; discriminate].
  destruct (deal_fields _ _ _ _ _ E) as (_ & _ & _ & Hp & Ho & _).
  split; [exact Hp|]. rewrite Ho. reflexivity.
Defined.

End EvaluatorInvariants.

(* ================================================================== *)
(** * Properties of the batch runner *)
(* ================================================================== *)

Module BatchRunner.

Import Py brazil_taxes google_sheets deals_checker FloatOrder Evaluator.
Import EvaluatorInvariants.
Open Scope nat_scope.

(** The Deal of a result, if any, as a list. *)
Definition deal_list (result : option Deal) : list Deal :=
  match result with
  | Some deal => [deal]
  | None => []
  end.

Lemma append_deals_flat deals results :
  append_deals deals results = (deals ++ flat_map deal_list results)%list.
Proof.
  revert deals. induction results as [|[d|] rs IH]; intros deals; simpl.
  - now rewrite app_nil_r.
  - rewrite IH, <- app_assoc. reflexivity.
  - apply IH.
Qed.

Section Run.
Variable self : DealsChecker.
Variable w : World.

(** The outcome of one evaluation; the globals it starts from do not
    matter. *)
Definition outcome (p : Product) : option Deal :=
  fst (check_product_for_deal self w p g0).

Lemma gather_outcomes ps g :
  fst (gather (map (check_product_for_deal self w) ps) g) = map outcome ps.
Proof.
  revert g. induction ps as [|p ps IH]; intros g; simpl; [reflexivity|].
  destruct (check_product_for_deal self w p g) as [r g1] eqn:E.
  specialize (IH g1).
  destruct (gather (map (check_product_for_deal self w) ps) g1) as [rs g2].
  simpl in *. rewrite IH. f_equal.
  unfold outcome.
  rewrite <- (proj1 (evaluation_ignores_global_rate self w p) g g0), E.
  reflexivity.
Qed.

(** The events of a run over [remaining] tasks: batches of five with a
    pause of two seconds between them, and none at the end. *)
Fixpoint batches (fuel remaining : nat) : list Event :=
  match fuel with
  | O => []
  | S fuel' =>
      if remaining =? 0 then []
      else if remaining <=? batch_size then [Gathered remaining]
      else Gathered batch_size :: Slept 2
             :: batches fuel' (remaining - batch_size)
  end.

Lemma run_batches_from ps fuel i deals events g :
  List.length ps <= i + fuel * batch_size ->
  let tasks := map (check_product_for_deal self w) ps in
  fst (run_batches tasks (range_from fuel i (List.length tasks) batch_size)
         deals events g)
  = ((deals ++ flat_map deal_list (map outcome (skipn i ps)))%list,
     (events ++ batches fuel (List.length ps - i))%list).
Proof.
  intros Hfuel tasks. unfold tasks. clear tasks.
  rewrite length_map.
  revert i deals events g Hfuel.
  induction fuel as [|fuel IH]; intros i deals events g Hfuel.
  - simpl in *. rewrite skipn_all2 by lia. simpl. now rewrite !app_nil_r.
  - cbn [range_from].
    destruct (i <? List.length ps) eqn:Hi.
    + apply Nat.ltb_lt in Hi.
      cbn [run_batches].
      rewrite skipn_map, firstn_map.
      pose proof (gather_outcomes (firstn batch_size (skipn i ps)) g) as Hg.
      destruct (gather _ g) as [results g'] eqn:E.
      cbn [fst] in Hg. subst results.
      rewrite IH by (unfold batch_size in *; lia).
      rewrite append_deals_flat, !length_map, length_firstn, length_skipn.
      f_equal.
      * rewrite <- app_assoc. f_equal.
        rewrite <- flat_map_app, <- map_app.
        replace (i + batch_size) with (batch_size + i) by lia.
        rewrite <- skipn_skipn, firstn_skipn. reflexivity.
      * cbn [batches].
        destruct (List.length ps - i =? 0) eqn:H0;
          [apply Nat.eqb_eq in H0; lia|].
        destruct (List.length ps - i <=? batch_size) eqn:H5.
        -- apply Nat.leb_le in H5.
           replace (i + batch_size <? List.length ps) with false
             by (symmetry; apply Nat.ltb_ge; lia).
           rewrite Nat.min_r by lia.
           replace (List.length ps - (i + batch_size)) with 0 by lia.
           rewrite <- app_assoc. f_equal.
           destruct fuel; reflexivity.
        -- apply Nat.leb_gt in H5.
           replace (i + batch_size <? List.length ps) with true
             by (symmetry; apply Nat.ltb_lt; lia).
           rewrite Nat.min_l by lia.
           rewrite <- !app_assoc. cbn [app].
           replace (List.length ps - (i + batch_size))
             with (List.length ps - i - batch_size) by lia.
           reflexivity.
    + apply Nat.ltb_ge in Hi. simpl.
      rewrite skipn_all2 by lia.
      replace (List.length ps - i) with 0 by lia.
      simpl. now rewrite !app_nil_r.
Qed.

(** X7. Batching does not show in the result: the Deals of a run are the
    Deals of the products that have a link and are not skipped as
    recently sent, each evaluated on its own, in the order of the
    products.  The run awaits them five at a time, pauses two seconds
    between two batches, and does not pause after the last. *)
Theorem check_all_products_result products tracker skip_recent hours g :
  let checked := filter (to_check tracker skip_recent hours) products in
  fst (check_all_products self w products tracker skip_recent hours g)
  = (flat_map (fun p => deal_list (outcome p)) checked,
     batches (List.length checked) (List.length checked)).
Proof.
  intros checked. unfold check_all_products, range. fold checked.
  rewrite (run_batches_from checked _ 0 [] [] g).
  - rewrite length_map. simpl. rewrite Nat.sub_0_r.
    f_equal. rewrite flat_map_concat_map, map_map, <- flat_map_concat_map.
    reflexivity.
  - rewrite length_map. unfold batch_size. lia.
Qed.

(** X8. A product without a link is never evaluated, nor is one that the
    tracker reports as recently sent when such products are to be
    skipped: every Deal of a run is the Deal of a product of the input
    that passes both tests, and there are at most as many Deals as
    products.  Without a tracker, or with [skip_recent] off, only the
    link is tested. *)
Theorem check_all_products_prefilter products tracker skip_recent hours g :
  let deals :=
    fst (fst (check_all_products self w products tracker skip_recent
                                 hours g)) in
  (forall d, In d deals ->
             In (product d) products
             /\ outcome (product d) = Some d
             /\ aliexpress_link (product d) <> ""
             /\ (skip_recent = true ->
                 forall sent, tracker = Some sent ->
                              sent (aliexpress_link (product d)) hours
                              = false))
  /\ List.length deals <= List.length products
  /\ ((tracker = None \/ skip_recent = false) ->
      forall p, to_check tracker skip_recent hours p
                = nonempty (aliexpress_link p)).
Proof.
  intros deals. unfold deals. clear deals.
  rewrite check_all_products_result. cbn [fst].
  repeat apply conj.
  - intros d Hd. apply in_flat_map in Hd. destruct Hd as (p & Hp & Hd).
    apply filter_In in Hp. destruct Hp as [Hin Hc].
    destruct (outcome p) as [d'|] eqn:Ho; simpl in Hd; [|contradiction].
    destruct Hd as [<-|[]].
    assert (Hprod : product d' = p).
    { unfold outcome in Ho. apply check_product_for_deal_Some in Ho.
      destruct Ho as (? & ? & ? & ? & ? & ? & ? & _ & _ & _ & _ & _ & _ & _
                      & ->).
      reflexivity. }
    rewrite Hprod. repeat split; auto.
    + intros E. unfold to_check in Hc. rewrite E in Hc. discriminate.
    + intros -> sent ->. unfold to_check in Hc.
      destruct (negb (nonempty (aliexpress_link p))); [discriminate|].
      apply negb_true_iff in Hc. exact Hc.
  - induction products as [|p ps IH]; [simpl; lia|].
    cbn [filter]. destruct (to_check tracker skip_recent hours p).
    + cbn [flat_map]. rewrite length_app.
      destruct (outcome p); cbn [deal_list List.length] in *; lia.
    + cbn [List.length]. lia.
  - intros H p. unfold to_check.
    destruct (nonempty (aliexpress_link p)); simpl; [|reflexivity].
    destruct H as [-> | ->]; [reflexivity|].
    destruct tracker; reflexivity.
Qed.

End Run.

(** Twelve products with a link, of which the tracker reports none: three
    batches and two pauses. *)
Example check_all_products_twelve :
  let products :=
    repeat (product_with_link
              "https://www.aliexpress.com/item/1005007431129955.html") 12 in
  let run :=
    fst (check_all_products (checker None None)
           (world (listing 10 "USD") None) products
           (Some (fun _ _ => false)) true 24 g0) in
  List.length (fst run) = 12
  /\ snd run
     = [Gathered 5; Slept 2; Gathered 5; Slept 2; Gathered 2].
Proof. split; vm_compute; reflexivity. Qed.

End BatchRunner.

(* ================================================================== *)
(** * More on the ranking *)
(* ================================================================== *)

Module RankingFacts.

Import Py brazil_taxes google_sheets deals_checker FloatOrder Evaluator.
Import Ranking.
Open Scope float_scope.

(** The minimum that [filter_best_deals] filters by. *)
Definition effective_min (self : DealsChecker) (min_discount : option float)
  : float :=
  match min_discount with
  | Some m => if truthy m then m else min_discount_percent self
  | None => min_discount_percent self
  end.

(** The kept deals in descending order, before the cut. *)
Definition ranked (self : DealsChecker) (deals : list Deal)
           (min_discount : option float) : list Deal :=
  sort_desc discount_percent (kept (effective_min self min_discount) deals).

Lemma filter_best_deals_slice self deals max_deals min_discount :
  filter_best_deals self deals max_deals min_discount
  = slice_to (ranked self deals min_discount) max_deals.
Proof. destruct min_discount; reflexivity. Qed.

Lemma firstn_In {A} k (l : list A) x : In x (firstn k l) -> In x l.
Proof.
  intros H. rewrite <- (firstn_skipn k l). apply in_or_app. left. exact H.
Qed.

Lemma slice_to_In {A} (l : list A) n x : In x (slice_to l n) -> In x l.
Proof. unfold slice_to. destruct (n <? 0)%Z; apply firstn_In. Qed.

Lemma slice_to_length {A} (l : list A) n :
  (List.length (slice_to l n) <= List.length l)%nat.
Proof.
  unfold slice_to. destruct (n <? 0)%Z; rewrite length_firstn; lia.
Qed.

(** X9. Whatever the arguments, a deal that [filter_best_deals] returns
    is one of the deals it was given, its discount is at least the
    minimum in force (the checker's own when [min_discount] is omitted or
    zero) and so is a number: a deal whose discount is NaN is never
    returned.  No more deals come out than went in. *)
Theorem filter_best_deals_sound self deals max_deals min_discount :
  (forall d,
      In d (filter_best_deals self deals max_deals min_discount) ->
      In d deals
      /\ (effective_min self min_discount <=? discount_percent d) = true
      /\ is_nan (discount_percent d) = false)
  /\ (List.length (filter_best_deals self deals max_deals min_discount)
      <= List.length deals)%nat.
Proof.
  rewrite filter_best_deals_slice. split.
  - intros d Hd. apply slice_to_In in Hd.
    apply (Permutation_in _ (sort_desc_perm _ _)) in Hd.
    apply filter_In in Hd. destruct Hd as [Hin Hge].
    repeat split; auto. eapply leb_nan_r, Hge.
  - etransitivity; [apply slice_to_length|].
    unfold ranked.
    rewrite (Permutation_length (sort_desc_perm _ _)).
    apply filter_length_le.
Qed.

(** X10. A negative [max_deals] does not give an empty list: it cuts that
    many deals off the low end of the ranking.  A [max_deals] of zero
    gives the empty list. *)
Theorem filter_best_deals_negative_count self deals max_deals min_discount :
  (max_deals < 0)%Z ->
  let all := ranked self deals min_discount in
  filter_best_deals self deals max_deals min_discount
  = firstn (List.length all - Z.to_nat (- max_deals)) all
  /\ List.length (filter_best_deals self deals max_deals min_discount)
     = (List.length all - Z.to_nat (- max_deals))%nat
  /\ filter_best_deals self deals 0 min_discount = [].
Proof.
  intros Hneg all.
  assert (E : filter_best_deals self deals max_deals min_discount
              = firstn (List.length all - Z.to_nat (- max_deals)) all).
  { rewrite filter_best_deals_slice. fold all. unfold slice_to.
    apply Z.ltb_lt in Hneg. rewrite Hneg. f_equal. lia. }
  split; [exact E|]. split.
  - rewrite E, length_firstn. lia.
  - rewrite filter_best_deals_slice. reflexivity.
Qed.

Lemma filter_best_deals_negative_count_witness :
  map discount_percent
      (filter_best_deals (checker None None)
         (map deal_of_discount [12; 45; 8; 30]) (-1) None)
  = [45; 30].
Proof.
  rewrite (proj1 (filter_best_deals_negative_count
                    (checker None None)
                    (map deal_of_discount [12; 45; 8; 30]) (-1) None
                    eq_refl)).
  reflexivity.
Defined.

(** ** Ranking twice *)

Section Sorted.
Context {A : Type}.
Variable key : A -> float.

Lemma sort_desc_sorted_id l :
  Sorted (ge_key key) l -> sort_desc key l = l.
Proof.
  induction 1 as [|x l Hs IH Hhd]; [reflexivity|].
  cbn [sort_desc]. rewrite IH.
  destruct Hhd as [|y l Hxy]; [reflexivity|].
  cbn [insert_desc].
  destruct (key x <? key y) eqn:E; [|reflexivity].
  apply ltb_leb_false in E. unfold ge_key in Hxy. congruence.
Qed.

Lemma firstn_sorted n l :
  Sorted (ge_key key) l -> Sorted (ge_key key) (firstn n l).
Proof.
  intros H. revert n. induction H as [|x l Hs IH Hhd]; intros n.
  - rewrite firstn_nil. constructor.
  - destruct n; [constructor|]. cbn [firstn]. constructor; [apply IH|].
    destruct Hhd as [|y l Hxy]; [rewrite firstn_nil; constructor|].
    destruct n; constructor. exact Hxy.
Qed.
End Sorted.

Lemma filter_all {A} (f : A -> bool) l :
  Forall (fun x => f x = true) l -> filter f l = l.
Proof.
  induction 1 as [|x l Hx _ IH]; simpl; [reflexivity|].
  now rewrite Hx, IH.
Qed.

(** X11. Ranking is idempotent: for a count that is not negative, ranking
    the result again with the same arguments gives the same list. *)
Theorem filter_best_deals_idempotent self deals max_deals min_discount :
  (0 <= max_deals)%Z ->
  filter_best_deals self
    (filter_best_deals self deals max_deals min_discount)
    max_deals min_discount
  = filter_best_deals self deals max_deals min_discount.
Proof.
  intros Hmax.
  assert (Hslice : forall l, slice_to l max_deals
                             = firstn (Z.to_nat max_deals) l :> list Deal).
  { intros l. unfold slice_to.
    destruct (max_deals <? 0)%Z eqn:E; [|reflexivity].
    apply Z.ltb_lt in E. lia. }
  rewrite !filter_best_deals_slice, !Hslice.
  set (m := effective_min self min_discount).
  set (all := ranked self deals min_discount).
  set (n := Z.to_nat max_deals).
  assert (Hsorted : Sorted (ge_key discount_percent) all)
    by apply sort_desc_sorted, kept_numbers.
  assert (Hkept : Forall (fun d => (m <=? discount_percent d) = true) all).
  { apply Forall_forall. intros d Hd.
    apply (Permutation_in _ (sort_desc_perm _ _)) in Hd.
    apply filter_In in Hd. apply Hd. }
  unfold ranked. fold m. unfold kept.
  rewrite filter_all.
  - rewrite sort_desc_sorted_id by apply firstn_sorted, Hsorted.
    apply firstn_all2. rewrite length_firstn. lia.
  - apply Forall_forall. intros d Hd.
    rewrite Forall_forall in Hkept. apply Hkept.
    apply (firstn_In n), Hd.
Qed.

Lemma filter_best_deals_idempotent_witness :
  let once :=
    filter_best_deals (checker None None)
      (map deal_of_discount [12; 45; 8; 30]) 2 None in
  filter_best_deals (checker None None) once 2 None = once.
Proof.
  apply (filter_best_deals_idempotent (checker None None)
           (map deal_of_discount [12; 45; 8; 30]) 2 None).
  discriminate.
Defined.

(** ** The ranking of a checker's own deals *)

(** X12. On the deals that a checker itself produced, the minimum filter
    of its ranking (with [min_discount] omitted, as the bot calls it)
    removes exactly the deals whose discount is NaN: every other deal
    already has a discount of at least the checker's minimum. *)
Theorem own_deals_pass_the_filter self deals :
  is_nan (min_discount_percent self) = false ->
  Forall (fun d => exists w p g,
              fst (check_product_for_deal self w p g) = Some d) deals ->
  kept (effective_min self None) deals
  = filter (fun d => negb (is_nan (discount_percent d))) deals.
Proof.
  intros Hmin Hall. unfold kept. simpl.
  induction Hall as [|d deals (w & p & g & Hd) _ IH]; [reflexivity|].
  cbn [filter]. rewrite IH.
  apply check_product_for_deal_Some in Hd.
  destruct Hd as (pid & details & ref & cur & amt & pct & link
                  & _ & _ & _ & _ & _ & Hdisc & _ & ->).
  simpl.
  assert (Hpct : (pct <? min_discount_percent self) = false).
  { unfold discount in Hdisc.
    destruct (ref <=? cur); [discriminate|].
    destruct (truediv _ _) as [q|]; [|discriminate].
    destruct (q * 100 <? min_discount_percent self) eqn:E; [discriminate|].
    injection Hdisc as _ <-. exact E. }
  destruct (is_nan pct) eqn:Hn; simpl.
  - destruct (min_discount_percent self <=? pct) eqn:E; [|reflexivity].
    apply leb_nan_r in E. congruence.
  - rewrite (ltb_false_leb _ _ Hn Hmin Hpct). reflexivity.
Qed.

Lemma own_deals_pass_the_filter_witness :
  let d := {| product := test_product;
              current_price := 18.5;
              original_price := 145;
              discount_percent :=
                (145 - (18.5 * 5 + 18.5 * 0.44 * 5)) / 145 * 100;
              discount_amount := 145 - (18.5 * 5 + 18.5 * 0.44 * 5);
              currency := "BRL";
              affiliate_link := "https://s.click.aliexpress.com/e/_abc";
              product_id := "1005007431129955";
              image_url := None;
              title := Some "Earphone";
              checked_at := 0%Z |} in
  kept (effective_min (checker (Some 5) None) None) [d] = [d].
Proof.
  intros d.
  apply (own_deals_pass_the_filter (checker (Some 5) None) [d] eq_refl).
  repeat constructor.
  exists (world (listing 18.5 "USD")
                (Some "https://s.click.aliexpress.com/e/_abc")),
    test_product, g0.
  reflexivity.
Defined.

(** X22. Whatever the arguments, the result is a slice of the ranking:
    the deals whose discount is at least the minimum in force, in
    descending order of discount, deals of equal discount in the order
    they came in.  For a count that is not negative the slice is the
    first [max_deals] of them. *)
Theorem filter_best_deals_ranking self deals max_deals min_discount :
  let m := effective_min self min_discount in
  let all := ranked self deals min_discount in
  filter_best_deals self deals max_deals min_discount
  = slice_to all max_deals
  /\ Permutation all (kept m deals)
  /\ Sorted (ge_key discount_percent) all
  /\ (forall k, filter (same_key discount_percent k) all
                = filter (same_key discount_percent k) (kept m deals))
  /\ ((0 <= max_deals)%Z ->
      slice_to all max_deals = firstn (Z.to_nat max_deals) all
      /\ (List.length (slice_to all max_deals) <= Z.to_nat max_deals)%nat).
Proof.
  intros m all. repeat apply conj.
  - apply filter_best_deals_slice.
  - apply sort_desc_perm.
  - apply sort_desc_sorted, kept_numbers.
  - intros k. apply sort_desc_stable.
  - intros Hmax.
    assert (E : slice_to all max_deals = firstn (Z.to_nat max_deals) all).
    { unfold slice_to. destruct (max_deals <? 0)%Z eqn:Hn; [|reflexivity].
      apply Z.ltb_lt in Hn. lia. }
    split; [exact E|]. rewrite E. apply firstn_le_length.
Qed.

Lemma filter_best_deals_ranking_witness :
  let deals := map deal_of_discount [12; 45; 8; 45; 30] in
  map discount_percent (ranked (checker None None) deals None)
  = [45; 45; 30; 12]
  /\ (List.length (filter_best_deals (checker None None) deals 3 None)
      <= 3)%nat.
Proof.
  intros deals. split; [reflexivity|].
  destruct (filter_best_deals_ranking (checker None None) deals 3 None)
    as (E & _ & _ & _ & H).
  rewrite E. apply H. discriminate.
Defined.

End RankingFacts.

(* ================================================================== *)
(** * More on the tax model and the exchange rate *)
(* ================================================================== *)

Module TaxFacts.

Import Py brazil_taxes FloatOrder.
Open Scope float_scope.

(** ** Signs *)

Lemma Prim2SF_zero : Prim2SF 0 = S754_zero false.
Proof. reflexivity. Qed.

(** Rounding a magnitude with a positive sign gives nothing negative. *)
Lemma binary_round_aux_not_negative m e l :
  SFltb (binary_round_aux prec emax false m e l) (S754_zero false) = false.
Proof.
  unfold binary_round_aux.
  destruct (shr_fexp prec emax m e l) as [mrs e'].
  destruct (shr_fexp prec emax _ e' loc_Exact) as [mrs' e''].
  destruct (shr_m mrs'); [reflexivity| |reflexivity].
  destruct (e'' <=? emax - prec)%Z; reflexivity.
Qed.

(** The product of two floats of which neither is below zero is not
    below zero. *)
Lemma mul_not_negative a b :
  (a <? 0) = false -> (b <? 0) = false -> (a * b <? 0) = false.
Proof.
  rewrite !FloatAxioms.ltb_spec, mul_spec, Prim2SF_zero.
  unfold SF64mul.
  destruct (Prim2SF a) as [[|]|[|]| |[|] ma ea];
    destruct (Prim2SF b) as [[|]|[|]| |[|] mb eb];
    simpl; intros Ha Hb; try reflexivity; try discriminate.
  apply binary_round_aux_not_negative.
Qed.

Lemma leb_false_ltb_false a b : (a <=? b) = false -> (a <? b) = false.
Proof.
  intros H. apply not_true_is_false. intros E.
  apply ltb_cmp in E. apply not_true_iff_false in H. apply H.
  apply leb_cmp. auto.
Qed.

(** X13. The tax is never negative, whatever the price (a NaN price
    gives a NaN tax, which is not below zero either); and at a rate that
    is not negative, neither is the tax in the domestic currency that
    [calculate_final_price_brl] returns. *)
Theorem tax_never_negative :
  (forall usd_price, (calculate_brazilian_tax usd_price <? 0) = false)
  /\ (forall usd_price rate g,
         (rate <? 0) = false ->
         let tax_brl :=
           snd (fst (fst (calculate_final_price_brl usd_price (Some rate) g)))
         in (tax_brl <? 0) = false).
Proof.
  assert (H : forall x, (calculate_brazilian_tax x <? 0) = false).
  { intros x. unfold calculate_brazilian_tax.
    destruct (x <=? 0) eqn:H0; [reflexivity|].
    destruct (x <=? 50).
    - apply mul_not_negative; [|reflexivity].
      apply leb_false_ltb_false, H0.
    - cbv zeta. set (t := x * 0.92 - 20).
      destruct (t <? 0) eqn:E; [reflexivity|exact E]. }
  split; [exact H|].
  intros x rate g Hr. simpl. apply mul_not_negative; [apply H|exact Hr].
Qed.

Lemma tax_never_negative_witness :
  (snd (fst (fst (calculate_final_price_brl 100 (Some 5)
                    {| USD_TO_BRL_RATE := 5 |}))) <? 0) = false.
Proof.
  apply (proj2 tax_never_negative 100 5 {| USD_TO_BRL_RATE := 5 |}).
  reflexivity.
Defined.

(** ** The rate in force *)

(** X14. A rate set with [update_exchange_rate] is the one a call
    without a rate uses, until [get_exchange_rate()] is called: that call
    returns the environment's rate (5.0 when the variable is unset),
    stores it in the global, and the rate that was set is gone. *)
Theorem update_then_get_exchange_rate e new_rate usd_price g :
  let g1 := snd (update_exchange_rate new_rate g) in
  let g2 := snd (get_exchange_rate e false g1) in
  fst (calculate_final_price_brl usd_price None g1)
  = fst (calculate_final_price_brl usd_price (Some new_rate) g)
  /\ fst (get_exchange_rate e false g1) = env_rate e
  /\ g2 = {| USD_TO_BRL_RATE := env_rate e |}
  /\ fst (calculate_final_price_brl usd_price None g2)
     = fst (calculate_final_price_brl usd_price (Some (env_rate e)) g)
  /\ (getenv_USD_TO_BRL_RATE e = None -> env_rate e = 5).
Proof.
  repeat split. unfold env_rate. intros ->. reflexivity.
Qed.

(** X15. [get_exchange_rate(use_api=True)] returns the rate of the
    service when there is one and it is not zero, but does not store it:
    a call without a rate that follows still uses the rate the global
    held before.  When the service fails or reports zero, the call does
    what it does without the service. *)
Theorem get_exchange_rate_from_service e g usd_price :
  (forall rate,
      exchangerate_api_BRL e = Some rate -> truthy rate = true ->
      fst (get_exchange_rate e true g) = rate
      /\ fst (calculate_final_price_brl usd_price None
                (snd (get_exchange_rate e true g)))
         = fst (calculate_final_price_brl usd_price
                  (Some (USD_TO_BRL_RATE g)) g))
  /\ (exchangerate_api_BRL e = None
      \/ (exists rate, exchangerate_api_BRL e = Some rate
                       /\ (rate =? 0) = true) ->
      get_exchange_rate e true g = get_exchange_rate e false g).
Proof.
  unfold get_exchange_rate. split.
  - intros rate -> ->. split; reflexivity.
  - intros [-> | (rate & -> & Hz)]; [reflexivity|].
    unfold truthy. rewrite Hz. reflexivity.
Qed.

Lemma get_exchange_rate_from_service_witness :
  let e := {| getenv_USD_TO_BRL_RATE := Some 5.5;
              exchangerate_api_BRL := Some 5.31 |} in
  fst (get_exchange_rate e true {| USD_TO_BRL_RATE := 5 |}) = 5.31
  /\ get_exchange_rate {| getenv_USD_TO_BRL_RATE := Some 5.5;
                          exchangerate_api_BRL := Some 0 |}
       true {| USD_TO_BRL_RATE := 5 |}
     = (5.5, {| USD_TO_BRL_RATE := 5.5 |}).
Proof.
  split.
  - apply (proj1 (get_exchange_rate_from_service
                    {| getenv_USD_TO_BRL_RATE := Some 5.5;
                       exchangerate_api_BRL := Some 5.31 |}
                    {| USD_TO_BRL_RATE := 5 |} 100) 5.31); reflexivity.
  - rewrite (proj2 (get_exchange_rate_from_service
                      {| getenv_USD_TO_BRL_RATE := Some 5.5;
                         exchangerate_api_BRL := Some 0 |}
                      {| USD_TO_BRL_RATE := 5 |} 100)); [reflexivity|].
    right. exists 0. split; reflexivity.
Defined.

End TaxFacts.

(* ================================================================== *)
(** * What the notifier makes of a Deal *)
(* ================================================================== *)

Module Notifier.

Import Py brazil_taxes google_sheets deals_checker FloatOrder Evaluator.
Import EvaluatorProperties EvaluatorInvariants.
Open Scope float_scope.

(** X16. Every Deal of the evaluator is tagged [BRL], so the message
    takes its price for an amount in BRL: the price without taxes shown
    is the listing's price as it is, and the price with taxes adds to it
    the tax on that price divided by the rate, times the rate.  When the
    listing was in another currency, the Deal's discount was taken from
    another landed price: the listing's price times the rate, plus the
    tax on the listing's price times the rate. *)
Theorem message_prices_of_deal self w p g d :
  fst (check_product_for_deal self w p g) = Some d ->
  let rate := env_rate (env w) in
  (forall g',
      (rate =? 0) = false ->
      fst (telegram_notifier.message_prices (env w) d g')
      = Some {| telegram_notifier.original_final_brl := original_price d;
                telegram_notifier.current_final_brl :=
                  current_price d
                  + calculate_brazilian_tax (current_price d / rate) * rate;
                telegram_notifier.original_base_brl :=
                  if 0 <? base_price p then base_price p
                  else original_price d / 1.5;
                telegram_notifier.current_base_brl := current_price d |})
  /\ (forall details c,
         fetch_product_details self w (product_id d) = Some details ->
         details_currency details = Some c ->
         upper c <> "BRL" ->
         discount_amount d
         = original_price d - landed_price (current_price d) rate).
Proof.
  intros H rate. apply check_product_for_deal_Some in H.
  destruct H as (pid & details & ref & cur & amt & pct & link
                 & _ & Hfetch & _ & _ & Hcur & Hdisc & _ & ->).
  split.
  - intros g' Hnz.
    unfold telegram_notifier.message_prices, get_exchange_rate, truediv.
    simpl. fold rate. rewrite Hnz. reflexivity.
  - simpl. intros details' c Hfetch' Hc Hother.
    rewrite Hfetch in Hfetch'. injection Hfetch' as <-.
    rewrite current_final_brl_run in Hcur. simpl in Hcur.
    unfold current_price_usd in Hcur. rewrite Hc in Hcur.
    apply String.eqb_neq in Hother. rewrite Hother in Hcur.
    simpl in Hcur. injection Hcur as <-.
    unfold discount in Hdisc.
    destruct (ref <=? _); [discriminate|].
    destruct (truediv _ _); [|discriminate].
    destruct (_ <? min_discount_percent self); [discriminate|].
    injection Hdisc as <- _. reflexivity.
Qed.

(** A listing of 10 USD at the rate 5.0: the discount is taken from a
    landed price of 72 BRL, and the message shows 14.40 BRL. *)
Lemma message_prices_of_deal_witness :
  let w := world (listing 10 "USD") None in
  let p := product_with_link
             "https://www.aliexpress.com/item/1005007431129955.html" in
  match fst (check_product_for_deal (checker None None) w p g0) with
  | Some d =>
      option_map telegram_notifier.current_final_brl
        (fst (telegram_notifier.message_prices (env w) d g0))
      = Some (10 + calculate_brazilian_tax (10 / 5) * 5)
      /\ discount_amount d = 145 - 72
  | None => False
  end.
Proof.
  intros w p.
  destruct (fst (check_product_for_deal (checker None None) w p g0))
    as [d|] eqn:E; [|vm_compute in E; discriminate].
  pose proof (message_prices_of_deal (checker None None) w p g0 d E)
    as [H1 H2].
  assert (Hd : d = mk_deal w p "1005007431129955"
                     {| details_product_id := "1005007431129955";
                        details_title := Some "Earphone";
                        details_image_url := None;
                        sale_price := 10;
                        details_original_price := 10;
                        details_currency := Some "USD" |}
                     145 (145 - landed_price 10 5)
                     ((145 - landed_price 10 5) / 145 * 100)
                     "https://www.aliexpress.com/item/1005007431129955.html").
  { vm_compute in E. injection E as <-. vm_compute. reflexivity. }
  split.
  - rewrite (H1 g0 eq_refl). subst d. reflexivity.
  - rewrite (H2 {| details_product_id := "1005007431129955";
                   details_title := Some "Earphone";
                   details_image_url := None;
                   sale_price := 10;
                   details_original_price := 10;
                   details_currency := Some "USD" |} "USD").
    + subst d. reflexivity.
    + subst d. reflexivity.
    + reflexivity.
    + vm_compute. discriminate.
Defined.

(** X17. Every Deal of the evaluator gets a keyboard, and its first
    button is [Comprar] with the Deal's outbound link; a [Review] button
    follows when the product's review link begins with [http]. *)
Theorem keyboard_of_deal self w p g d :
  fst (check_product_for_deal self w p g) = Some d ->
  telegram_notifier._create_deal_keyboard d
  = Some [ telegram_notifier.Comprar (affiliate_link d)
           :: (if telegram_notifier.http_link (review_link p)
               then [telegram_notifier.Review (review_link p)]
               else []) ].
Proof.
  intros H.
  destruct (deal_link_is_http self w p g d H) as [Hhttp _].
  apply check_product_for_deal_Some in H.
  destruct H as (pid & details & ref & cur & amt & pct & link
                 & _ & _ & _ & _ & _ & _ & _ & ->).
  simpl in *.
  assert (Hl : telegram_notifier.http_link link = true).
  { unfold telegram_notifier.http_link. rewrite Hhttp.
    destruct link; [discriminate|reflexivity]. }
  unfold telegram_notifier._create_deal_keyboard, mk_deal.
  cbn [affiliate_link product]. rewrite Hl. reflexivity.
Qed.

Lemma keyboard_of_deal_witness :
  match fst (check_product_for_deal (checker None None)
               (world (listing 10 "USD")
                      (Some "https://s.click.aliexpress.com/e/_abc"))
               test_product g0) with
  | Some d =>
      telegram_notifier._create_deal_keyboard d
      = Some [[telegram_notifier.Comprar (affiliate_link d)]]
  | None => False
  end.
Proof.
  destruct (fst (check_product_for_deal (checker None None)
                   (world (listing 10 "USD")
                          (Some "https://s.click.aliexpress.com/e/_abc"))
                   test_product g0)) as [d|] eqn:E;
    [|vm_compute in E; discriminate].
  rewrite (keyboard_of_deal _ _ _ _ _ E). reflexivity.
Defined.

End Notifier.

(* ================================================================== *)
(** * Properties of the price formatting *)
(* ================================================================== *)

Module Formatting.

Import Py brazil_taxes FloatOrder.
Open Scope string_scope.

(** ** Replacing one character *)

Lemma prefix_empty s : prefix "" s = true.
Proof. destruct s; reflexivity. Qed.

Lemma replace_char_cons o new c s :
  replace (String o "") new (String c s)
  = if Ascii.eqb o c then new ++ replace (String o "") new s
    else String c (replace (String o "") new s).
Proof.
  unfold replace. cbn [replace_from prefix String.length Nat.sub].
  destruct (ascii_dec o c) as [->|Hne].
  - rewrite Ascii.eqb_refl, prefix_empty. reflexivity.
  - apply Ascii.eqb_neq in Hne. rewrite Hne. reflexivity.
Qed.

Lemma replace_char_nil o new : replace (String o "") new "" = "".
Proof. reflexivity. Qed.

(** [,] becomes [.] and [.] becomes [,]. *)
Definition swap_separator (c : ascii) : ascii :=
  if Ascii.eqb c "," then "."%char
  else if Ascii.eqb c "." then ","%char else c.

Fixpoint swap_separators (s : string) : string :=
  match s with
  | EmptyString => EmptyString
  | String c s' => String (swap_separator c) (swap_separators s')
  end.

Definition no_X (s : string) : bool :=
  all_chars (fun c => negb (Ascii.eqb c "X")) s.

(** The three replacements through the placeholder [X] swap the two
    separators of a text that holds no [X]. *)
Lemma replace_through_X s :
  no_X s = true ->
  replace "X" "." (replace "." "," (replace "," "X" s)) = swap_separators s.
Proof.
  unfold no_X. induction s as [|c s IH]; [reflexivity|].
  cbn [all_chars]. intros H. apply andb_true_iff in H. destruct H as [Hc H].
  apply negb_true_iff in Hc. specialize (IH H).
  rewrite (replace_char_cons "," "X" c s).
  destruct (Ascii.eqb "," c) eqn:E1.
  - apply Ascii.eqb_eq in E1. subst c.
    cbn [append]. rewrite (replace_char_cons "." "," "X"). cbn [Ascii.eqb Bool.eqb].
    rewrite (replace_char_cons "X" "." "X"). cbn [Ascii.eqb Bool.eqb append].
    rewrite IH. reflexivity.
  - rewrite (replace_char_cons "." "," c).
    destruct (Ascii.eqb "." c) eqn:E2.
    + apply Ascii.eqb_eq in E2. subst c.
      cbn [append]. rewrite (replace_char_cons "X" "." ",").
      cbn [Ascii.eqb Bool.eqb]. rewrite IH. reflexivity.
    + rewrite (replace_char_cons "X" "." c).
      rewrite (Ascii.eqb_sym "X" c), Hc, IH.
      cbn [swap_separators]. unfold swap_separator.
      rewrite (Ascii.eqb_sym c ","), E1, (Ascii.eqb_sym c "."), E2.
      reflexivity.
Qed.

(** ** The characters of a formatted float *)

(** Digits, the two separators, the sign. *)
Definition number_char (c : ascii) : bool :=
  is_ascii_digit c || Ascii.eqb c "," || Ascii.eqb c "." || Ascii.eqb c "-".

Lemma all_chars_app p a b :
  all_chars p (a ++ b) = all_chars p a && all_chars p b.
Proof.
  induction a as [|c a IH]; simpl; [reflexivity|].
  now rewrite IH, andb_assoc.
Qed.

Lemma all_chars_of_list p l :
  all_chars p (string_of_list_ascii l) = forallb p l.
Proof. induction l as [|c l IH]; simpl; [reflexivity|]. now rewrite IH. Qed.

Lemma all_chars_to_list p s :
  forallb p (list_ascii_of_string s) = all_chars p s.
Proof. induction s as [|c s IH]; simpl; [reflexivity|]. now rewrite IH. Qed.

Lemma forallb_rev {A} (p : A -> bool) l : forallb p (rev l) = forallb p l.
Proof.
  induction l as [|x l IH]; simpl; [reflexivity|].
  rewrite forallb_app, IH. simpl. rewrite andb_true_r. apply andb_comm.
Qed.

Lemma group_rev_chars l n :
  forallb is_ascii_digit l = true ->
  forallb number_char (group_rev l n) = true.
Proof.
  revert n. induction l as [|c l IH]; intros n; simpl; [reflexivity|].
  intros H. apply andb_true_iff in H. destruct H as [Hc H].
  assert (Hn : number_char c = true) by (unfold number_char; now rewrite Hc).
  destruct (n =? 3)%nat; simpl; rewrite Hn, IH; auto.
Qed.

Lemma group_thousands_chars digits :
  all_chars is_ascii_digit digits = true ->
  all_chars number_char (group_thousands digits) = true.
Proof.
  intros H. unfold group_thousands.
  rewrite all_chars_of_list, forallb_rev. apply group_rev_chars.
  rewrite forallb_rev, all_chars_to_list. exact H.
Qed.

Lemma string_of_uint_digits d :
  all_chars is_ascii_digit (NilEmpty.string_of_uint d) = true.
Proof. induction d; simpl; auto. Qed.

Lemma decimal_digits n :
  all_chars is_ascii_digit (NilZero.string_of_uint (N.to_uint n)) = true.
Proof.
  unfold NilZero.string_of_uint.
  destruct (N.to_uint n); try reflexivity; apply string_of_uint_digits.
Qed.

Lemma digit_char_digit d : (d < 10)%nat -> is_ascii_digit (digit_char d) = true.
Proof.
  intros H.
  do 10 (destruct d as [|d]; [reflexivity|]). lia.
Qed.

(** The integer digits, grouped, of a finite float; and its two
    decimals. *)
Definition integer_text (m : positive) (e : Z) : string :=
  group_thousands
    (NilZero.string_of_uint (N.to_uint (Z.to_N (hundredths m e / 100)))).

Definition decimals_text (m : positive) (e : Z) : string :=
  let cents := Z.to_nat (hundredths m e mod 100) in
  String (digit_char (cents / 10))
         (String (digit_char (cents mod 10)) EmptyString).

Lemma decimals_text_digits m e :
  all_chars is_ascii_digit (decimals_text m e) = true.
Proof.
  unfold decimals_text. cbn [all_chars].
  assert (H : (Z.to_nat (hundredths m e mod 100) < 100)%nat).
  { pose proof (Z.mod_pos_bound (hundredths m e) 100 eq_refl). lia. }
  rewrite !digit_char_digit; [reflexivity| |].
  - apply Nat.mod_upper_bound. discriminate.
  - apply Nat.Div0.div_lt_upper_bound. lia.
Qed.

Lemma digits_are_number_chars s :
  all_chars is_ascii_digit s = true -> all_chars number_char s = true.
Proof.
  induction s as [|c s IH]; simpl; [reflexivity|].
  intros H. apply andb_true_iff in H. destruct H as [Hc H].
  unfold number_char at 1. rewrite Hc. simpl. auto.
Qed.

Lemma number_chars_no_X s : all_chars number_char s = true -> no_X s = true.
Proof.
  unfold no_X. induction s as [|c s IH]; simpl; [reflexivity|].
  intros H. apply andb_true_iff in H. destruct H as [Hc H].
  rewrite IH by exact H. rewrite andb_true_r.
  destruct (Ascii.eqb c "X") eqn:E; [|reflexivity].
  apply Ascii.eqb_eq in E. subst c. discriminate.
Qed.

Lemma format_finite_chars s m e :
  all_chars number_char
    (sign_text s ++ integer_text m e ++ "." ++ decimals_text m e) = true.
Proof.
  rewrite !all_chars_app.
  unfold integer_text.
  rewrite group_thousands_chars by apply decimal_digits.
  rewrite (digits_are_number_chars _ (decimals_text_digits m e)).
  destruct s; reflexivity.
Qed.

Lemma format_comma_2f_no_X x : no_X (format_comma_2f x) = true.
Proof.
  unfold format_comma_2f.
  destruct (Prim2SF x) as [[|]|[|]| |s m e]; try reflexivity.
  apply number_chars_no_X, (format_finite_chars s m e).
Qed.



(** X18. The detour through the placeholder [X] is a true swap of the
    two separators, for every float: the formatted number never holds an
    [X].  So [format_brl_price] is [R$] and a space, then the number as
    [f"{price:,.2f}"] gives it, with every [,] turned into [.] and every
    [.] into [,]. *)
Theorem format_brl_price_swaps price :
  format_brl_price price
  = "R$ " ++ swap_separators (format_comma_2f price).
Proof.
  unfold format_brl_price.
  rewrite replace_through_X by apply format_comma_2f_no_X. reflexivity.
Qed.

Lemma replace_keeps_prefix o new s :
  replace (String o "") new ("R$ " ++ s)
  = if Ascii.eqb o "R" || Ascii.eqb o "$" || Ascii.eqb o " "
    then replace (String o "") new ("R$ " ++ s)
    else "R$ " ++ replace (String o "") new s.
Proof.
  destruct (Ascii.eqb o "R") eqn:E1; [reflexivity|].
  destruct (Ascii.eqb o "$") eqn:E2; [reflexivity|].
  destruct (Ascii.eqb o " ") eqn:E3; [reflexivity|].
  cbn [append orb].
  rewrite (replace_char_cons o new "R"), E1.
  rewrite (replace_char_cons o new "$"), E2.
  rewrite (replace_char_cons o new " "), E3.
  reflexivity.
Qed.

(** X19. The notifier's own [_format_price] with the currency [BRL]
    gives, for every price, the very string of [format_brl_price]; with
    [USD] it gives [$] and the number with its separators unswapped. *)
Theorem format_price_BRL_agrees price :
  telegram_notifier._format_price price "BRL" = format_brl_price price
  /\ telegram_notifier._format_price price "USD"
     = "$" ++ format_comma_2f price.
Proof.
  split; [|reflexivity].
  unfold telegram_notifier._format_price, format_brl_price.
  cbn [String.eqb Ascii.eqb Bool.eqb].
  rewrite (replace_keeps_prefix "," "X"). cbn [Ascii.eqb Bool.eqb orb].
  rewrite (replace_keeps_prefix "." ","). cbn [Ascii.eqb Bool.eqb orb].
  rewrite (replace_keeps_prefix "X" "."). cbn [Ascii.eqb Bool.eqb orb].
  reflexivity.
Qed.









End Formatting.
